(** * rtsp_snapshot: a shallow embedding of [rtsp_snapshot.py]

    The script reads a list of camera records and, for each of them, grabs
    either one JPEG frame or a fixed-duration MP4 clip from the camera's RTSP
    stream.  Everything the script gets from outside (OpenCV, the wall clock,
    the calendar) is an oracle in the record [Env]; the script itself is a
    state-and-exception computation that logs every external call it makes. *)

From Stdlib Require Import String Ascii.
From Stdlib Require Import List NArith ZArith QArith Bool Arith Lia Lqa.
Import ListNotations.

Close Scope Q_scope.
Set Implicit Arguments.

(** ** Python strings

    A Python [str] is a sequence of Unicode code points. *)

Definition char := N.
Definition pystr := list char.

Definition lit (s : string) : pystr :=
  List.map N_of_ascii (list_ascii_of_string s).

Definition char_eqb (a b : char) : bool := N.eqb a b.

Fixpoint pystr_eqb (a b : pystr) : bool :=
  match a, b with
  | [], [] => true
  | x :: a', y :: b' => char_eqb x y && pystr_eqb a' b'
  | _, _ => false
  end.

(** [x in xs] for a list of strings. *)
Definition str_in (x : pystr) (xs : list pystr) : bool :=
  existsb (pystr_eqb x) xs.

(** Truthiness of a string: [bool(s)]. *)
Definition truthy (s : pystr) : bool :=
  match s with [] => false | _ => true end.

(** ** Module constants *)

Definition DEFAULT_DURATION : Z := 10.
Definition DEFAULT_FILEFORMAT : pystr := lit "jpg".
Definition SUPPORTED_FORMATS : list pystr := [lit "jpg"; lit "mp4"].

(** ** [safe_filename]

    [str.isalpha] and [str.isdigit] are given by the ASCII ranges below code
    point 128; above it they are read from the Unicode character database,
    which enters as the two tables of [unicode_db]. *)

Record unicode_db := {
  uni_isalpha : char -> bool;
  uni_isdigit : char -> bool
}.

Definition underscore : char := 95%N.
Definition dot : char := 46%N.
Definition slash : char := 47%N.

Section Sanitizer.

Variable U : unicode_db.

Definition isalpha (c : char) : bool :=
  if (c <? 128)%N
  then ((65 <=? c) && (c <=? 90) || (97 <=? c) && (c <=? 122))%N
  else uni_isalpha U c.

Definition isdigit (c : char) : bool :=
  if (c <? 128)%N
  then ((48 <=? c) && (c <=? 57))%N
  else uni_isdigit U c.

(** The condition of the comprehension:
    [c.isalpha() or c.isdigit() or c in ("_", ".")]. *)
Definition keeps (c : char) : bool :=
  isalpha c || isdigit c || (char_eqb c underscore || char_eqb c dot).

(** ["".join([c for c in filename if ...])]. *)
Fixpoint safe_filename (filename : pystr) : pystr :=
  match filename with
  | [] => []
  | c :: rest =>
      if keeps c then c :: safe_filename rest else safe_filename rest
  end.

End Sanitizer.

(** ** Paths

    [pathlib.Path] in its POSIX flavour: a path is a root flag and a list of
    components.  Parsing a string splits it at ['/'] and drops the empty and
    the ["."] components; [".."] is kept as it is. *)

Record Path := { is_abs : bool; parts : list pystr }.

Fixpoint split_on (sep : char) (s : pystr) : list pystr :=
  match s with
  | [] => [[]]
  | c :: r =>
      if char_eqb c sep then [] :: split_on sep r
      else match split_on sep r with
           | [] => [[c]]
           | w :: ws => (c :: w) :: ws
           end
  end.

Definition real_part (w : pystr) : bool :=
  negb (pystr_eqb w []) && negb (pystr_eqb w [dot]).

Definition parse_path (s : pystr) : Path :=
  {| is_abs := match s with c :: _ => char_eqb c slash | [] => false end;
     parts := filter real_part (split_on slash s) |}.

(** [p / s]: an absolute right operand replaces the left one. *)
Definition joinpath (p : Path) (s : pystr) : Path :=
  let q := parse_path s in
  if is_abs q then q
  else {| is_abs := is_abs p; parts := parts p ++ parts q |}.

Definition SAVE_DIR : Path := parse_path (lit "snapshots_rtsp").

Fixpoint join_parts (ws : list pystr) : pystr :=
  match ws with
  | [] => []
  | [w] => w
  | w :: ws' => w ++ slash :: join_parts ws'
  end.

(** [str(p)]. *)
Definition str_of_path (p : Path) : pystr :=
  match is_abs p, parts p with
  | false, [] => [dot]
  | false, ws => join_parts ws
  | true, ws => slash :: join_parts ws
  end.

(** [os.path.normpath] on the components of a relative path: a [".."]
    cancels the component before it, unless there is none or that one is a
    [".."] itself.  [acc] is the stack of components kept so far, last one
    first. *)
Definition dotdot : pystr := [dot; dot].

Fixpoint norm_parts (acc : list pystr) (ws : list pystr) : list pystr :=
  match ws with
  | [] => rev acc
  | w :: ws' =>
      if pystr_eqb w dotdot then
        match acc with
        | [] => norm_parts [dotdot] ws'
        | top :: below =>
            if pystr_eqb top dotdot then norm_parts (dotdot :: acc) ws'
            else norm_parts below ws'
        end
      else norm_parts (w :: acc) ws'
  end.

Definition normpath (p : Path) : list pystr := norm_parts [] (parts p).

Fixpoint strip_prefix (pre ws : list pystr) : option (list pystr) :=
  match pre, ws with
  | [], _ => Some ws
  | x :: pre', y :: ws' => if pystr_eqb x y then strip_prefix pre' ws' else None
  | _ :: _, [] => None
  end.

(** [inside dir p]: once both are normalised, [p] names something strictly
    below [dir], reached without stepping up. *)
Definition inside (dir p : Path) : bool :=
  Bool.eqb (is_abs dir) (is_abs p) &&
  match strip_prefix (normpath dir) (normpath p) with
  | Some (w :: rest) => negb (str_in dotdot (w :: rest))
  | _ => false
  end.

Fixpoint parts_eqb (a b : list pystr) : bool :=
  match a, b with
  | [], [] => true
  | x :: a', y :: b' => pystr_eqb x y && parts_eqb a' b'
  | _, _ => false
  end.

(** [p.parent == dir], for a path [p] that has a last component. *)
Definition directly_in (dir p : Path) : bool :=
  match rev (parts p) with
  | [] => false
  | _ :: up => Bool.eqb (is_abs p) (is_abs dir)
               && parts_eqb (rev up) (parts dir)
  end.

(** ** Timestamps: [datetime.now().strftime("%Y%m%d_%H%M%S")] *)

Record datetime := {
  year : nat; month : nat; day : nat;
  hour : nat; minute : nat; second : nat
}.

Definition digit (n : nat) : char := (48 + N.of_nat (n mod 10))%N.

Definition two_digits (n : nat) : pystr := [digit (n / 10); digit n].

Definition four_digits (n : nat) : pystr :=
  [digit (n / 1000); digit (n / 100); digit (n / 10); digit n].

Definition strftime (d : datetime) : pystr :=
  four_digits (year d) ++ two_digits (month d) ++ two_digits (day d)
  ++ underscore :: two_digits (hour d) ++ two_digits (minute d)
  ++ two_digits (second d).

(** ** The outside world

    A [frame] is what [cap.read()] decodes; [shape0] and [shape1] are
    [frame.shape[0]] (height) and [frame.shape[1]] (width). *)

Record frame := { shape0 : nat; shape1 : nat; frame_id : nat }.

(** What [cv2.imwrite] can do: return [True], return [False], or raise
    [cv2.error]. *)
Inductive imwrite_result := Written | NotWritten | ImwriteError.

(** The oracles.  Captures are numbered in the order the run constructs
    them, reads in their order on one capture, clock and calendar readings in
    the order the run asks for them. *)
Record Env := {
  unicode      : unicode_db;
  is_opened    : nat -> pystr -> bool;
  frame_width  : nat -> nat;
  frame_height : nat -> nat;
  read_result  : nat -> nat -> bool * option frame;
  time_time    : nat -> Q;
  imwrite      : Path -> option frame -> imwrite_result;
  datetime_now : nat -> datetime
}.

(** One constructor for each [print] of the script, with the values its
    f-string interpolates. *)
Inductive message :=
| MsgSnapshotNotOpened (url : pystr)
    (* "Error: Could not open video stream for URL: {url}" *)
| MsgNotWritten (name : pystr) (output_path : Path)
    (* "[{name}] Error: Could not write image to {output_path}" *)
| MsgSavedSnapshot (name : pystr) (output_path : Path) (w h : nat)
    (* "[{name}] Saved snapshot: {output_path} ({w}x{h})" *)
| MsgVideoNotOpened (name url : pystr)
    (* "[{name}] Could not open {url}" *)
| MsgSavingVideo (name : pystr) (output_path : Path) (duration_sec : Z)
    (* "[{name}] Saving video to {output_path} for {duration_sec} seconds..." *)
| MsgSavedVideo (name : pystr) (output_path : Path) (w h : nat)
    (* "[{name}] Saved video: {output_path}  ({w}x{h})" *)
| MsgNoDevices
    (* "No devices found in config file. Nothing to do." *)
| MsgSkipping
    (* "[WARNING] Skipping device with missing camera_name or camera_url..." *)
| MsgUnsupported (fileformat : pystr).
    (* "Unsupported file format '{fileformat}', using default format: 'jpg'" *)

(** The external calls of a run, in the order they are logged. *)
Inductive event :=
| EOpen (h : nat) (url : pystr)          (* cv2.VideoCapture(url, ...) *)
| ESetBuffer (h : nat)                   (* cap.set(CAP_PROP_BUFFERSIZE, 1) *)
| ERead (h : nat)                        (* cap.read() *)
| ERelease (h : nat)                     (* cap.release() *)
| ESleep                                 (* time.sleep(0.05) *)
| EImwrite (p : Path) (f : option frame) (* cv2.imwrite(str(p), f, ...) *)
| EWriterOpen (p : Path) (fps w h : nat) (* cv2.VideoWriter(p, fourcc, fps, (w, h)) *)
| EWriterWrite (p : Path) (f : option frame)   (* out.write(frame) *)
| EWriterRelease (p : Path)              (* out.release() *)
| EMakedirs (p : Path)                   (* os.makedirs(p, exist_ok=True) *)
| ENow                                   (* datetime.now() *)
| EPrint (m : message).

Inductive exn :=
| SystemExit                             (* exit() *)
| FileNotFoundError                      (* config file not found *)
| InvalidJson                            (* ValueError: invalid JSON *)
| UnsupportedFormat (fileformat : pystr) (* ValueError: unsupported format *)
| Cv2Error                               (* cv2.error out of imwrite *)
| AttributeError.                        (* frame.shape on None *)

(** The run's own state: how many captures, reads on the current capture,
    clock readings and calendar readings it has consumed, and the log of
    external calls in the order they were made. *)
Record State := {
  n_caps  : nat;
  n_reads : nat;
  n_clock : nat;
  n_dates : nat;
  trace   : list event
}.

Definition initial : State :=
  {| n_caps := 0; n_reads := 0; n_clock := 0; n_dates := 0; trace := [] |}.

Inductive result (A : Type) :=
| Returned (a : A)
| Raised (e : exn)
| OutOfFuel.

Arguments Returned {A} a.
Arguments Raised {A} e.
Arguments OutOfFuel {A}.

Definition M (A : Type) := State -> result A * State.

Definition ret {A} (a : A) : M A := fun st => (Returned a, st).

Definition bind {A B} (m : M A) (k : A -> M B) : M B :=
  fun st =>
    match m st with
    | (Returned a, st') => k a st'
    | (Raised e, st') => (Raised e, st')
    | (OutOfFuel, st') => (OutOfFuel, st')
    end.

Definition raise {A} (e : exn) : M A := fun st => (Raised e, st).

Definition out_of_fuel {A} : M A := fun st => (OutOfFuel, st).

Notation "x <- m ;; k" := (bind m (fun x => k))
  (at level 61, m at next level, right associativity).
Notation "m ;; k" := (bind m (fun _ => k))
  (at level 61, right associativity).

Definition emit (e : event) : M unit :=
  fun st =>
    (Returned tt,
     {| n_caps := n_caps st; n_reads := n_reads st; n_clock := n_clock st;
        n_dates := n_dates st; trace := trace st ++ [e] |}).

Definition print (m : message) : M unit := emit (EPrint m).

Definition Qltb (x y : Q) : bool := negb (Qle_bool y x).

(** ** Device records

    One entry of the JSON configuration.  A field is [None] when the key is
    absent; a present field carries the JSON type the configuration format
    gives it (strings, and an integer [duration]).  On these records
    [int(...)] of the duration is the identity and [safe_filename] gets a
    string to iterate over; records with other JSON values in these fields,
    on which the two calls raise, are not covered. *)

Record device := {
  camera_name : option pystr;
  camera_url  : option pystr;
  directory   : option pystr;
  filename    : option pystr;
  fileformat  : option pystr;
  duration    : option Z
}.

(** [d.get(key, default)] *)
Definition get {A} (field : option A) (default : A) : A :=
  match field with Some v => v | None => default end.

(** [not d.get(key)]: the key is absent or its value is falsy. *)
Definition missing (field : option pystr) : bool :=
  match field with Some v => negb (truthy v) | None => true end.

(** What [main] finds at [args.config_file]. *)
Inductive config_file :=
| NoSuchFile
| Malformed
| Devices (devices : list device).

(** ** The script *)

Section Script.

Variable env : Env.

(** [cv2.VideoCapture(url, ...)]: the handle is the capture's number. *)
Definition VideoCapture (url : pystr) : M nat :=
  fun st =>
    (Returned (n_caps st),
     {| n_caps := S (n_caps st); n_reads := 0; n_clock := n_clock st;
        n_dates := n_dates st; trace := trace st ++ [EOpen (n_caps st) url] |}).

Definition cap_read (h : nat) : M (bool * option frame) :=
  fun st =>
    (Returned (read_result env h (n_reads st)),
     {| n_caps := n_caps st; n_reads := S (n_reads st); n_clock := n_clock st;
        n_dates := n_dates st; trace := trace st ++ [ERead h] |}).

(** [time.time()] *)
Definition now_time : M Q :=
  fun st =>
    (Returned (time_time env (n_clock st)),
     {| n_caps := n_caps st; n_reads := n_reads st; n_clock := S (n_clock st);
        n_dates := n_dates st; trace := trace st |}).

(** [datetime.now()] *)
Definition now_date : M datetime :=
  fun st =>
    (Returned (datetime_now env (n_dates st)),
     {| n_caps := n_caps st; n_reads := n_reads st; n_clock := n_clock st;
        n_dates := S (n_dates st); trace := trace st ++ [ENow] |}).

(** The loop of [save_snapshot]:
    [while time.time() - t0 < 5: ... break ... time.sleep(0.05)].
    It returns the value of [frame] when the loop is left. *)
Fixpoint wait_keyframe (fuel : nat) (h : nat) (t0 : Q) : M (option frame) :=
  match fuel with
  | O => out_of_fuel
  | S fuel' =>
      t <- now_time ;;
      if Qltb (t - t0)%Q 5%Q then
        r <- cap_read h ;;
        match r with
        | (true, Some frm) => ret (Some frm)
        | _ => emit ESleep ;; wait_keyframe fuel' h t0
        end
      else ret None
  end.

Definition save_snapshot (fuel : nat) (name url : pystr) (output_path : Path)
  : M unit :=
  cap <- VideoCapture url ;;
  (if negb (is_opened env cap url)
   then print (MsgSnapshotNotOpened url) ;; raise SystemExit
   else ret tt) ;;
  emit (ESetBuffer cap) ;;
  t0 <- now_time ;;
  frame <- wait_keyframe fuel cap t0 ;;
  emit (EImwrite output_path frame) ;;
  match imwrite env output_path frame with
  | ImwriteError => raise Cv2Error
  | NotWritten => print (MsgNotWritten name output_path) ;; emit (ERelease cap)
  | Written =>
      match frame with
      | None => raise AttributeError
      | Some frm =>
          print (MsgSavedSnapshot name output_path (shape1 frm) (shape0 frm)) ;;
          emit (ERelease cap)
      end
  end.

(** The loop of [save_video]:
    [while time.time() - start_time < duration_sec: ... if not ret: break]. *)
Fixpoint record_frames (fuel : nat) (h : nat) (out : Path) (start_time : Q)
    (duration_sec : Z) : M unit :=
  match fuel with
  | O => out_of_fuel
  | S fuel' =>
      t <- now_time ;;
      if Qltb (t - start_time)%Q (inject_Z duration_sec) then
        r <- cap_read h ;;
        if negb (fst r) then ret tt
        else emit (EWriterWrite out (snd r)) ;;
             record_frames fuel' h out start_time duration_sec
      else ret tt
  end.

Definition save_video (fuel : nat) (name url : pystr) (duration_sec : Z)
    (output_path : Path) (fps : nat) : M unit :=
  cap <- VideoCapture url ;;
  emit (ESetBuffer cap) ;;
  if negb (is_opened env cap url)
  then print (MsgVideoNotOpened name url)
  else
    let width := frame_width env cap in
    let height := frame_height env cap in
    emit (EWriterOpen output_path fps width height) ;;
    print (MsgSavingVideo name output_path duration_sec) ;;
    start_time <- now_time ;;
    record_frames fuel cap output_path start_time duration_sec ;;
    emit (ERelease cap) ;;
    emit (EWriterRelease output_path) ;;
    print (MsgSavedVideo name output_path width height).

Definition record_rtsp_stream (fuel : nat) (name url : pystr)
    (output_path : Path) (fileformat : pystr) (duration_sec : Z) : M unit :=
  if pystr_eqb fileformat (lit "jpg") then
    save_snapshot fuel name url output_path
  else if pystr_eqb fileformat (lit "mp4") then
    save_video fuel name url duration_sec output_path 25
  else raise (UnsupportedFormat fileformat).

(** The body of [for device in devices]. *)
Definition process_device (fuel : nat) (d : device) : M unit :=
  let camera_name := camera_name d in
  let camera_url := camera_url d in
  let directory := safe_filename (unicode env) (get (directory d) (lit "")) in
  let filename := get (filename d) (lit "video.mp4") in
  let fileformat := get (fileformat d) (lit "mp4") in
  let duration := get (duration d) DEFAULT_DURATION in
  if missing camera_url || missing camera_name then
    print MsgSkipping
  else
    fileformat <-
      (if negb (str_in fileformat SUPPORTED_FORMATS)
       then print (MsgUnsupported fileformat) ;; ret DEFAULT_FILEFORMAT
       else ret fileformat) ;;
    output_path <-
      (if truthy directory
       then emit (EMakedirs (joinpath SAVE_DIR directory)) ;;
            ret (joinpath SAVE_DIR directory)
       else ret SAVE_DIR) ;;
    dt <- now_date ;;
    let timestamp := strftime dt in
    record_rtsp_stream fuel
      (get camera_name []) (get camera_url [])
      (joinpath output_path
         (timestamp ++ underscore :: filename ++ dot :: fileformat))
      fileformat duration.

Fixpoint for_devices (fuel : nat) (devices : list device) : M unit :=
  match devices with
  | [] => ret tt
  | d :: rest => process_device fuel d ;; for_devices fuel rest
  end.

Definition main (fuel : nat) (config : config_file) : M unit :=
  match config with
  | NoSuchFile => raise FileNotFoundError
  | Malformed => raise InvalidJson
  | Devices devices =>
      match devices with
      | [] => print MsgNoDevices
      | _ => for_devices fuel devices
      end
  end.

(** The script's entry point:
    [create_output_directory(SAVE_DIR)] and then [main()]. *)
Definition script (fuel : nat) (config : config_file) : M unit :=
  emit (EMakedirs SAVE_DIR) ;; main fuel config.

End Script.

(** ** Vocabulary of the statements *)

(** The directory the loop body resolves for a device: [SAVE_DIR], or
    [SAVE_DIR / directory] when the sanitized [directory] is not empty. *)
Definition out_dir (U : unicode_db) (d : device) : Path :=
  let sane := safe_filename U (get (directory d) (lit "")) in
  if truthy sane then joinpath SAVE_DIR sane else SAVE_DIR.

(** The format the loop body hands to [record_rtsp_stream]. *)
Definition dispatch_format (d : device) : pystr :=
  let ff := get (fileformat d) (lit "mp4") in
  if str_in ff SUPPORTED_FORMATS then ff else DEFAULT_FILEFORMAT.

(** A record the loop body does not skip. *)
Definition dispatched (d : device) : bool :=
  negb (missing (camera_url d) || missing (camera_name d)).

Fixpoint starts_with (pre s : pystr) : bool :=
  match pre, s with
  | [], _ => true
  | x :: pre', y :: s' => char_eqb x y && starts_with pre' s'
  | _ :: _, [] => false
  end.

Definition ends_with (suf s : pystr) : bool :=
  starts_with (rev suf) (rev s).

(** [sub in s] *)
Fixpoint contains (sub s : pystr) : bool :=
  starts_with sub s ||
  match s with
  | [] => false
  | _ :: s' => contains sub s'
  end.

(** [r] is the [ValueError] of [record_rtsp_stream]. *)
Definition is_unsupported (A : Type) (r : result A) : bool :=
  match r with
  | Raised (UnsupportedFormat _) => true
  | _ => false
  end.

(** [e] releases, respectively opens, capture [h]. *)
Definition releases (h : nat) (e : event) : bool :=
  match e with ERelease h' => Nat.eqb h h' | _ => false end.

Definition opens (h : nat) (e : event) : bool :=
  match e with EOpen h' _ => Nat.eqb h h' | _ => false end.

Definition is_open (e : event) : bool :=
  match e with EOpen _ _ => true | _ => false end.

Definition is_file_write (e : event) : bool :=
  match e with
  | EImwrite _ _ | EWriterOpen _ _ _ _ | EWriterWrite _ _ => true
  | _ => false
  end.

Definition is_frame_write (e : event) : bool :=
  match e with EWriterWrite _ _ => true | _ => false end.

(** The log of [n] rounds of the recording loop that start at read [j]:
    a read, then the frame appended to the writer. *)
Fixpoint recorded (env : Env) (h : nat) (out : Path) (j n : nat) : list event :=
  match n with
  | O => []
  | S n' =>
      ERead h :: EWriterWrite out (snd (read_result env h j))
      :: recorded env h out (S j) n'
  end.

(** The log of [n] rounds of the keyframe loop that find no frame:
    a read, then the nap. *)
Fixpoint polled (h : nat) (n : nat) : list event :=
  match n with
  | O => []
  | S n' => ERead h :: ESleep :: polled h n'
  end.

(** [r] is not a usable frame: [not (ok and frm is not None)]. *)
Definition no_frame (r : bool * option frame) : bool :=
  match r with
  | (true, Some _) => false
  | _ => true
  end.

(** The last path segment the loop body builds:
    [f"{timestamp}_{filename}.{fileformat}"]. *)
Definition segment (d : device) (dt : datetime) : pystr :=
  strftime dt ++ underscore :: get (filename d) (lit "video.mp4")
  ++ dot :: dispatch_format d.

(** The output path the loop body hands to [record_rtsp_stream]. *)
Definition target (U : unicode_db) (d : device) (dt : datetime) : Path :=
  joinpath (out_dir U d) (segment d dt).

(** What the loop body logs for a record before it calls
    [record_rtsp_stream]: the warning for a format it replaces, the
    [makedirs] for a directory it was given, and the calendar reading. *)
Definition preamble (U : unicode_db) (d : device) : list event :=
  (if str_in (get (fileformat d) (lit "mp4")) SUPPORTED_FORMATS then []
   else [EPrint (MsgUnsupported (get (fileformat d) (lit "mp4")))])
  ++ (if truthy (safe_filename U (get (directory d) (lit "")))
      then [EMakedirs (out_dir U d)] else [])
  ++ [ENow].

(** A computation that takes no calendar reading. *)
Definition dates_kept (A : Type) (m : M A) : Prop :=
  forall st, n_dates (snd (m st)) = n_dates st.

(** The path components that a record's file name contributes: those of
    [<timestamp>_<filename>.<format>]. *)
Definition file_parts (d : device) (dt : datetime) : list pystr :=
  filter real_part (split_on slash (segment d dt)).

(** Walking the components [ws] from [depth] names below a directory:
    does a [".."] ever lead above that directory? *)
Fixpoint climbs (depth : nat) (ws : list pystr) : bool :=
  match ws with
  | [] => false
  | w :: ws' =>
      if pystr_eqb w dotdot then
        match depth with
        | O => true
        | S k => climbs k ws'
        end
      else climbs (S depth) ws'
  end.

(** No name among [ws] is the name of a component of [dir]. *)
Definition foreign (dir : Path) (ws : list pystr) : bool :=
  forallb (fun w => pystr_eqb w dotdot || negb (str_in w (parts dir))) ws.

(** ** Sample worlds and records *)

Definition ascii_db : unicode_db :=
  {| uni_isalpha := fun _ => false; uni_isdigit := fun _ => false |}.

Definition vga : frame := {| shape0 := 480; shape1 := 640; frame_id := 0 |}.

Definition noon : datetime :=
  {| year := 2025; month := 3; day := 9; hour := 12; minute := 0; second := 7 |}.

Definition seconds (n : nat) : Q := inject_Z (Z.of_nat n).

(** Every stream opens and delivers frames; each clock reading is one
    second later than the one before. *)
Definition sunny : Env :=
  {| unicode := ascii_db;
     is_opened := fun _ _ => true;
     frame_width := fun _ => 640;
     frame_height := fun _ => 480;
     read_result := fun _ _ => (true, Some vga);
     time_time := seconds;
     imwrite := fun _ f => match f with Some _ => Written | None => ImwriteError end;
     datetime_now := fun _ => noon |}.

(** As [sunny], but the first capture of the run cannot be opened. *)
Definition first_down : Env :=
  {| unicode := ascii_db;
     is_opened := fun h _ => negb (Nat.eqb h 0);
     frame_width := fun _ => 640;
     frame_height := fun _ => 480;
     read_result := fun _ _ => (true, Some vga);
     time_time := seconds;
     imwrite := fun _ f => match f with Some _ => Written | None => ImwriteError end;
     datetime_now := fun _ => noon |}.

(** Streams open but never deliver a frame; [imwrite] answers an empty
    image with [r]. *)
Definition mute (r : imwrite_result) : Env :=
  {| unicode := ascii_db;
     is_opened := fun _ _ => true;
     frame_width := fun _ => 640;
     frame_height := fun _ => 480;
     read_result := fun _ _ => (false, None);
     time_time := seconds;
     imwrite := fun _ f => match f with Some _ => Written | None => r end;
     datetime_now := fun _ => noon |}.

(** Streams deliver two frames and then drop. *)
Definition drops_after_two : Env :=
  {| unicode := ascii_db;
     is_opened := fun _ _ => true;
     frame_width := fun _ => 640;
     frame_height := fun _ => 480;
     read_result := fun _ j => if Nat.ltb j 2 then (true, Some vga) else (false, None);
     time_time := seconds;
     imwrite := fun _ f => match f with Some _ => Written | None => ImwriteError end;
     datetime_now := fun _ => noon |}.

Definition camera (name url : string) (ff : string) : device :=
  {| camera_name := Some (lit name); camera_url := Some (lit url);
     directory := None; filename := None;
     fileformat := Some (lit ff); duration := None |}.

Definition named (d : device) (fn : string) : device :=
  {| camera_name := camera_name d; camera_url := camera_url d;
     directory := directory d; filename := Some (lit fn);
     fileformat := fileformat d; duration := duration d |}.

Definition porch_jpg : device := camera "porch" "rtsp://10.0.0.1/live" "jpg".
Definition yard_jpg : device := camera "yard" "rtsp://10.0.0.2/live" "jpg".
Definition porch_mp4 : device := camera "porch" "rtsp://10.0.0.1/live" "mp4".
Definition yard_mp4 : device := camera "yard" "rtsp://10.0.0.2/live" "mp4".

Definition clip_path : Path :=
  joinpath SAVE_DIR (lit "20250309_120007_clip.mp4").
Definition shot_path : Path :=
  joinpath SAVE_DIR (lit "20250309_120007_shot.jpg").

(** ** Vocabulary of the further properties *)

(** A relation between the state before and the state after that a
    computation keeps, whatever its outcome. *)
Definition respects (R : State -> State -> Prop) (A : Type) (m : M A) : Prop :=
  forall st, R st (snd (m st)).

(** The log only grows. *)
Definition extends (st st' : State) : Prop :=
  exists l, trace st' = trace st ++ l.

Definition is_raised (A : Type) (r : result A) : bool :=
  match r with Raised _ => true | _ => false end.

(** The exceptions a capture can end in. *)
Definition capture_error (e : exn) : bool :=
  match e with
  | SystemExit | Cv2Error | AttributeError => true
  | _ => false
  end.

Definition raises_only (A : Type) (ok : exn -> bool) (r : result A) : bool :=
  match r with Raised e => ok e | _ => true end.

(** What the keyframe loop logs: reads of [h] and naps. *)
Definition poll_event (h : nat) (e : event) : bool :=
  match e with
  | ERead h' => Nat.eqb h h'
  | ESleep => true
  | _ => false
  end.

(** What the recording loop logs: reads of [h] and frames appended to the
    writer of [out]. *)
Definition record_event (h : nat) (out : Path) (e : event) : bool :=
  match e with
  | ERead h' => Nat.eqb h h'
  | EWriterWrite p _ => parts_eqb (parts p) (parts out)
  | _ => false
  end.

(** The records of a list that the loop does not skip. *)
Definition count_dispatched (devices : list device) : nat :=
  length (filter dispatched devices).

(** The ranges of the fields of a [datetime] whose year has four digits,
    as every reading of [datetime.now()] has. *)
Definition valid_datetime (d : datetime) : bool :=
  (1000 <=? N.of_nat (year d))%N && (N.of_nat (year d) <=? 9999)%N
  && (1 <=? month d) && (month d <=? 12)
  && (1 <=? day d) && (day d <=? 31)
  && (hour d <=? 23) && (minute d <=? 59) && (second d <=? 59).

(** ASCII letters, digits, underscore and dot. *)
Definition ascii_safe (c : char) : bool :=
  ((65 <=? c) && (c <=? 90) || (97 <=? c) && (c <=? 122)
   || (48 <=? c) && (c <=? 57))%N
  || char_eqb c underscore || char_eqb c dot.

(** A record with nothing but a name and a URL. *)
Definition bare (name url : pystr) : device :=
  {| camera_name := Some name; camera_url := Some url;
     directory := None; filename := None;
     fileformat := None; duration := None |}.

(** A record with a [directory] and a [filename]. *)
Definition filed (name url dir fn ff : pystr) : device :=
  {| camera_name := Some name; camera_url := Some url;
     directory := Some dir; filename := Some fn;
     fileformat := Some ff; duration := None |}.

(** * Properties *)

(** ** Strings and comparisons *)

Lemma char_eqb_eq (a b : char) : char_eqb a b = true <-> a = b.
Proof. apply N.eqb_eq. Qed.

Lemma pystr_eqb_eq (a b : pystr) : pystr_eqb a b = true <-> a = b.
Proof.
  revert b; induction a as [|x a IH]; intros [|y b]; simpl;
    try (split; [discriminate | discriminate]); try tauto.
  rewrite andb_true_iff, char_eqb_eq, IH.
  split; [intros [-> ->]; reflexivity | intros H; inversion H; auto].
Qed.

Lemma pystr_eqb_refl (a : pystr) : pystr_eqb a a = true.
Proof. apply pystr_eqb_eq; reflexivity. Qed.

Lemma Qltb_lt (x y : Q) : Qltb x y = true <-> (x < y)%Q.
Proof.
  unfold Qltb. rewrite negb_true_iff.
  split; intros H.
  - apply Qnot_le_lt. intros Hle. apply Qle_bool_iff in Hle. congruence.
  - destruct (Qle_bool y x) eqn:E; [|reflexivity].
    apply Qle_bool_iff in E. exfalso. apply (Qlt_not_le _ _ H E).
Qed.

Lemma Qltb_ge (x y : Q) : Qltb x y = false <-> (y <= x)%Q.
Proof.
  unfold Qltb. rewrite negb_false_iff. apply Qle_bool_iff.
Qed.

(** ** The sanitizer *)

Lemma safe_filename_filter (U : unicode_db) (s : pystr) :
  safe_filename U s = filter (keeps U) s.
Proof.
  induction s as [|c s IH]; simpl; [reflexivity|].
  rewrite IH; reflexivity.
Qed.


Lemma keeps_slash (U : unicode_db) : keeps U slash = false.
Proof. reflexivity. Qed.


Lemma filter_lacks (U : unicode_db) (c : char) (s : pystr) :
  keeps U c = false -> existsb (char_eqb c) (filter (keeps U) s) = false.
Proof.
  intros Hc. induction s as [|x s IH]; simpl; [reflexivity|].
  destruct (keeps U x) eqn:Hx; [|exact IH].
  simpl. rewrite IH, orb_false_r.
  destruct (char_eqb c x) eqn:E; [|reflexivity].
  apply char_eqb_eq in E. congruence.
Qed.


(** ** The empty batch *)

(** C8. On an empty device list [main] returns normally, having done
    nothing but print that no devices were found: no capture is
    constructed and the log gains neither an open nor a write.  The whole
    script, started afresh, only makes sure [SAVE_DIR] exists first. *)
Theorem C8_empty_batch_is_noop :
  forall (env : Env) (fuel : nat) (st : State),
    let r := main env fuel (Devices []) st in
    fst r = Returned tt
    /\ trace (snd r) = trace st ++ [EPrint MsgNoDevices]
    /\ n_caps (snd r) = n_caps st
    /\ existsb is_open (trace (snd r)) = existsb is_open (trace st)
    /\ existsb is_file_write (trace (snd r))
       = existsb is_file_write (trace st)
    /\ script env fuel (Devices []) initial
       = (Returned tt,
          {| n_caps := 0; n_reads := 0; n_clock := 0; n_dates := 0;
             trace := [EMakedirs SAVE_DIR; EPrint MsgNoDevices] |}).
Proof.
  intros env fuel st. simpl.
  rewrite !existsb_app. simpl. rewrite !orb_false_r.
  repeat split.
Qed.

(** ** Failure to open a stream *)

(** [save_snapshot] leaves through [exit()] when the capture is not open. *)
Lemma save_snapshot_not_opened :
  forall (env : Env) (fuel : nat) (name url : pystr) (p : Path) (st : State),
    is_opened env (n_caps st) url = false ->
    save_snapshot env fuel name url p st
    = (Raised SystemExit,
       {| n_caps := S (n_caps st); n_reads := 0; n_clock := n_clock st;
          n_dates := n_dates st;
          trace := trace st ++ [EOpen (n_caps st) url;
                                EPrint (MsgSnapshotNotOpened url)] |}).
Proof.
  intros env fuel name url p st H.
  unfold save_snapshot, bind, VideoCapture, print, emit, raise. simpl.
  rewrite H. simpl. rewrite <- app_assoc. reflexivity.
Qed.

(** [save_video] returns to its caller when the capture is not open. *)
Lemma save_video_not_opened :
  forall (env : Env) (fuel : nat) (name url : pystr) (D : Z) (p : Path)
         (fps : nat) (st : State),
    is_opened env (n_caps st) url = false ->
    save_video env fuel name url D p fps st
    = (Returned tt,
       {| n_caps := S (n_caps st); n_reads := 0; n_clock := n_clock st;
          n_dates := n_dates st;
          trace := trace st ++ [EOpen (n_caps st) url; ESetBuffer (n_caps st);
                                EPrint (MsgVideoNotOpened name url)] |}).
Proof.
  intros env fuel name url D p fps st H.
  unfold save_video, bind, VideoCapture, print, emit. simpl.
  rewrite H. simpl. rewrite <- !app_assoc. reflexivity.
Qed.

(** An exception in one device's round ends the loop. *)
Lemma for_devices_raised :
  forall (env : Env) (fuel : nat) (d : device) (rest : list device)
         (st st' : State) (e : exn),
    process_device env fuel d st = (Raised e, st') ->
    for_devices env fuel (d :: rest) st = (Raised e, st').
Proof.
  intros env fuel d rest st st' e H. simpl. unfold bind. rewrite H.
  reflexivity.
Qed.

(** C1. Two snapshot cameras, the first unreachable: [main] leaves through
    [SystemExit] right after the failed open and the second camera is never
    opened.  With the same two cameras recording video, the first failure
    is printed and the second camera is opened. *)
Theorem C1_snapshot_open_failure_aborts_batch :
  main first_down 20 (Devices [porch_jpg; yard_jpg]) initial
  = (Raised SystemExit,
     {| n_caps := 1; n_reads := 0; n_clock := 0; n_dates := 1;
        trace := [ENow; EOpen 0 (lit "rtsp://10.0.0.1/live");
                  EPrint (MsgSnapshotNotOpened (lit "rtsp://10.0.0.1/live"))] |})
  /\ fst (main first_down 20 (Devices [porch_mp4; yard_mp4]) initial)
     = Returned tt
  /\ existsb (opens 1)
       (trace (snd (main first_down 20 (Devices [porch_mp4; yard_mp4]) initial)))
     = true.
Proof.
  repeat split; vm_compute; reflexivity.
Qed.

(** ** The keyframe loop *)

Ltac step := unfold bind, now_time, cap_read, emit, print, ret; simpl.

(** Unfold what is left of the logging and bring the log to normal form. *)
Ltac tidy :=
  repeat (progress (unfold print, emit, raise, ret; cbn;
                    rewrite <- ?app_assoc)).

(** One round that finds no usable frame and naps. *)
Lemma wait_keyframe_round :
  forall (env : Env) (h : nat) (t0 : Q) (fuel : nat) (st : State),
    Qltb (time_time env (n_clock st) - t0)%Q 5%Q = true ->
    no_frame (read_result env h (n_reads st)) = true ->
    wait_keyframe env (S fuel) h t0 st
    = wait_keyframe env fuel h t0
        {| n_caps := n_caps st; n_reads := S (n_reads st);
           n_clock := S (n_clock st); n_dates := n_dates st;
           trace := trace st ++ [ERead h; ESleep] |}.
Proof.
  intros env h t0 fuel st Ht Hr. simpl. step. rewrite Ht. cbn.
  destruct (read_result env h (n_reads st)) as [[|] [frm|]];
    simpl in Hr; try discriminate; cbn; rewrite <- app_assoc; reflexivity.
Qed.

(** [n] rounds without a usable frame, then the deadline: the loop is left
    with [frame] still [None]. *)
Lemma wait_keyframe_timeout :
  forall (env : Env) (h : nat) (t0 : Q) (n fuel : nat) (st : State),
    (forall i, i < n ->
       Qltb (time_time env (n_clock st + i) - t0)%Q 5%Q = true
       /\ no_frame (read_result env h (n_reads st + i)) = true) ->
    Qltb (time_time env (n_clock st + n) - t0)%Q 5%Q = false ->
    n < fuel ->
    wait_keyframe env fuel h t0 st
    = (Returned None,
       {| n_caps := n_caps st; n_reads := n_reads st + n;
          n_clock := S (n_clock st + n); n_dates := n_dates st;
          trace := trace st ++ polled h n |}).
Proof.
  intros env h t0 n. induction n as [|n IH]; intros fuel st Hlt Hge Hfuel;
    (destruct fuel as [|fuel]; [lia|]).
  - simpl. step. rewrite Nat.add_0_r in Hge. rewrite Hge.
    rewrite !Nat.add_0_r, app_nil_r. reflexivity.
  - destruct (Hlt 0) as [Ht Hr]; [lia|]. rewrite Nat.add_0_r in Ht, Hr.
    rewrite wait_keyframe_round by assumption.
    rewrite IH; simpl.
    + rewrite <- !app_assoc, <- !plus_n_Sm. reflexivity.
    + intros i Hi. specialize (Hlt (S i)). rewrite <- !plus_n_Sm in Hlt.
      apply Hlt. lia.
    + rewrite <- plus_n_Sm in Hge. exact Hge.
    + lia.
Qed.

(** [n] rounds without a usable frame, then a read that delivers one
    before the deadline: the loop is left with that frame. *)
Lemma wait_keyframe_found :
  forall (env : Env) (h : nat) (t0 : Q) (frm : frame) (n fuel : nat)
         (st : State),
    (forall i, i < n ->
       Qltb (time_time env (n_clock st + i) - t0)%Q 5%Q = true
       /\ no_frame (read_result env h (n_reads st + i)) = true) ->
    Qltb (time_time env (n_clock st + n) - t0)%Q 5%Q = true ->
    read_result env h (n_reads st + n) = (true, Some frm) ->
    n < fuel ->
    wait_keyframe env fuel h t0 st
    = (Returned (Some frm),
       {| n_caps := n_caps st; n_reads := S (n_reads st + n);
          n_clock := S (n_clock st + n); n_dates := n_dates st;
          trace := trace st ++ polled h n ++ [ERead h] |}).
Proof.
  intros env h t0 frm n. induction n as [|n IH];
    intros fuel st Hlt Ht Hr Hfuel; (destruct fuel as [|fuel]; [lia|]).
  - simpl. step. rewrite Nat.add_0_r in Ht, Hr. rewrite Ht. cbn.
    rewrite Hr. cbn. rewrite !Nat.add_0_r. reflexivity.
  - destruct (Hlt 0) as [Ht0 Hr0]; [lia|]. rewrite Nat.add_0_r in Ht0, Hr0.
    rewrite wait_keyframe_round by assumption.
    rewrite IH; simpl.
    + rewrite <- !app_assoc, <- !plus_n_Sm. reflexivity.
    + intros i Hi. specialize (Hlt (S i)). rewrite <- !plus_n_Sm in Hlt.
      apply Hlt. lia.
    + rewrite <- plus_n_Sm in Ht. exact Ht.
    + rewrite <- plus_n_Sm in Hr. exact Hr.
    + lia.
Qed.

(** A frame arrives in time: [save_snapshot] writes it and releases the
    capture, whether [imwrite] reports success or failure; only a
    [cv2.error] out of [imwrite] leaves the capture unreleased. *)
Lemma save_snapshot_frame :
  forall (env : Env) (name url : pystr) (p : Path) (frm : frame)
         (n fuel : nat) (st : State),
    is_opened env (n_caps st) url = true ->
    (forall i, i < n ->
       (time_time env (S (n_clock st) + i) - time_time env (n_clock st) < 5)%Q
       /\ no_frame (read_result env (n_caps st) i) = true) ->
    (time_time env (S (n_clock st) + n) - time_time env (n_clock st) < 5)%Q ->
    read_result env (n_caps st) n = (true, Some frm) ->
    n < fuel ->
    let called := trace st ++ [EOpen (n_caps st) url; ESetBuffer (n_caps st)]
                  ++ polled (n_caps st) n
                  ++ [ERead (n_caps st); EImwrite p (Some frm)] in
    let st' (tail : list event) :=
      {| n_caps := S (n_caps st); n_reads := S n;
         n_clock := S (S (n_clock st + n)); n_dates := n_dates st;
         trace := called ++ tail |} in
    save_snapshot env fuel name url p st
    = match imwrite env p (Some frm) with
      | ImwriteError => (Raised Cv2Error, st' [])
      | Written =>
          (Returned tt,
           st' [EPrint (MsgSavedSnapshot name p (shape1 frm) (shape0 frm));
                ERelease (n_caps st)])
      | NotWritten =>
          (Returned tt,
           st' [EPrint (MsgNotWritten name p); ERelease (n_caps st)])
      end.
Proof.
  intros env name url p frm n fuel st Hopen Hlt Ht Hr Hfuel called st'.
  unfold save_snapshot, VideoCapture. step. rewrite Hopen. simpl.
  rewrite (@wait_keyframe_found env (n_caps st) (time_time env (n_clock st))
             frm n fuel); simpl.
  - subst st' called.
    destruct (imwrite env p (Some frm)); tidy; rewrite ?app_nil_r;
      reflexivity.
  - intros i Hi. destruct (Hlt i Hi) as [Hti Hri]. split.
    + apply Qltb_lt. exact Hti.
    + exact Hri.
  - apply Qltb_lt. exact Ht.
  - exact Hr.
  - exact Hfuel.
Qed.

(** An opened stream that yields no frame before the deadline: the loop
    gives up and [save_snapshot] goes on to [cv2.imwrite] with no frame.
    What happens next is up to [imwrite]; the capture is released only if
    [imwrite] returns [False]. *)
Lemma save_snapshot_no_frame :
  forall (env : Env) (name url : pystr) (p : Path) (n fuel : nat) (st : State),
    is_opened env (n_caps st) url = true ->
    (forall i, i < n ->
       (time_time env (S (n_clock st) + i) - time_time env (n_clock st) < 5)%Q
       /\ no_frame (read_result env (n_caps st) i) = true) ->
    (5 <= time_time env (S (n_clock st) + n) - time_time env (n_clock st))%Q ->
    n < fuel ->
    let called := trace st ++ [EOpen (n_caps st) url; ESetBuffer (n_caps st)]
                  ++ polled (n_caps st) n ++ [EImwrite p None] in
    let st' (tail : list event) :=
      {| n_caps := S (n_caps st); n_reads := n;
         n_clock := S (S (n_clock st + n)); n_dates := n_dates st;
         trace := called ++ tail |} in
    save_snapshot env fuel name url p st
    = match imwrite env p None with
      | ImwriteError => (Raised Cv2Error, st' [])
      | Written => (Raised AttributeError, st' [])
      | NotWritten =>
          (Returned tt,
           st' [EPrint (MsgNotWritten name p); ERelease (n_caps st)])
      end.
Proof.
  intros env name url p n fuel st Hopen Hlt Hge Hfuel called st'.
  unfold save_snapshot, VideoCapture. step. rewrite Hopen. simpl.
  rewrite (@wait_keyframe_timeout env (n_caps st) (time_time env (n_clock st))
             n fuel); simpl.
  - subst st' called.
    destruct (imwrite env p None); simpl; unfold raise; simpl;
      rewrite <- ?app_assoc; simpl; rewrite <- ?app_assoc; simpl;
      rewrite ?app_nil_r; reflexivity.
  - intros i Hi. destruct (Hlt i Hi) as [Ht Hr]. split.
    + apply Qltb_lt. exact Ht.
    + exact Hr.
  - apply Qltb_ge. exact Hge.
  - exact Hfuel.
Qed.

(** C2. An opened stream whose every read fails, with a clock that ticks
    once a second: after four polls the deadline has passed, and the capture
    goes on to call [cv2.imwrite] with no frame instead of giving up; here
    [imwrite] rejects the empty image and [cv2.error] leaves
    [save_snapshot]. *)
Theorem C2_no_frame_goes_on_to_imwrite :
  (forall h url, is_opened (mute ImwriteError) h url = true)
  /\ (forall h j, no_frame (read_result (mute ImwriteError) h j) = true)
  /\ save_snapshot (mute ImwriteError) 20 (lit "porch")
       (lit "rtsp://10.0.0.1/live") shot_path initial
     = (Raised Cv2Error,
        {| n_caps := 1; n_reads := 4; n_clock := 6; n_dates := 0;
           trace := [EOpen 0 (lit "rtsp://10.0.0.1/live"); ESetBuffer 0]
                    ++ polled 0 4 ++ [EImwrite shot_path None] |}).
Proof.
  repeat split; vm_compute; reflexivity.
Qed.

(** C3. On the same stream the capture that was opened is never released:
    [save_snapshot] is left through [cv2.error] when [imwrite] rejects the
    empty image, and through [AttributeError] at [frame.shape] when
    [imwrite] accepts it; [cap.release()] is reached on neither way. *)
Theorem C3_timeout_path_keeps_handle :
  let rejected := save_snapshot (mute ImwriteError) 20 (lit "porch")
                    (lit "rtsp://10.0.0.1/live") shot_path initial in
  let accepted := save_snapshot (mute Written) 20 (lit "porch")
                    (lit "rtsp://10.0.0.1/live") shot_path initial in
  fst rejected = Raised Cv2Error
  /\ existsb (opens 0) (trace (snd rejected)) = true
  /\ existsb (releases 0) (trace (snd rejected)) = false
  /\ fst accepted = Raised AttributeError
  /\ existsb (opens 0) (trace (snd accepted)) = true
  /\ existsb (releases 0) (trace (snd accepted)) = false.
Proof.
  repeat split; vm_compute; reflexivity.
Qed.

(** ** The recording loop *)

(** One round that reads a frame and appends it. *)
Lemma record_frames_round :
  forall (env : Env) (h : nat) (out : Path) (t0 : Q) (D : Z) (fuel : nat)
         (st : State),
    Qltb (time_time env (n_clock st) - t0)%Q (inject_Z D) = true ->
    fst (read_result env h (n_reads st)) = true ->
    record_frames env (S fuel) h out t0 D st
    = record_frames env fuel h out t0 D
        {| n_caps := n_caps st; n_reads := S (n_reads st);
           n_clock := S (n_clock st); n_dates := n_dates st;
           trace := trace st ++ [ERead h;
                      EWriterWrite out (snd (read_result env h (n_reads st)))] |}.
Proof.
  intros env h out t0 D fuel st Ht Hr. simpl. step. rewrite Ht. cbn.
  rewrite Hr. cbn. rewrite <- app_assoc. reflexivity.
Qed.

(** [n] rounds with a frame each, then the duration has elapsed. *)
Lemma record_frames_elapsed :
  forall (env : Env) (h : nat) (out : Path) (t0 : Q) (D : Z) (n fuel : nat)
         (st : State),
    (forall i, i < n ->
       Qltb (time_time env (n_clock st + i) - t0)%Q (inject_Z D) = true
       /\ fst (read_result env h (n_reads st + i)) = true) ->
    Qltb (time_time env (n_clock st + n) - t0)%Q (inject_Z D) = false ->
    n < fuel ->
    record_frames env fuel h out t0 D st
    = (Returned tt,
       {| n_caps := n_caps st; n_reads := n_reads st + n;
          n_clock := S (n_clock st + n); n_dates := n_dates st;
          trace := trace st ++ recorded env h out (n_reads st) n |}).
Proof.
  intros env h out t0 D n. induction n as [|n IH]; intros fuel st Hlt Hge Hfuel;
    (destruct fuel as [|fuel]; [lia|]).
  - simpl. step. rewrite Nat.add_0_r in Hge. rewrite Hge.
    rewrite !Nat.add_0_r, app_nil_r. reflexivity.
  - destruct (Hlt 0) as [Ht Hr]; [lia|]. rewrite Nat.add_0_r in Ht, Hr.
    rewrite record_frames_round by assumption.
    rewrite IH; simpl.
    + rewrite <- !app_assoc, <- !plus_n_Sm. reflexivity.
    + intros i Hi. specialize (Hlt (S i)). rewrite <- !plus_n_Sm in Hlt.
      apply Hlt. lia.
    + rewrite <- plus_n_Sm in Hge. exact Hge.
    + lia.
Qed.

(** [n] rounds with a frame each, then a read that fails while the duration
    has not elapsed. *)
Lemma record_frames_dropped :
  forall (env : Env) (h : nat) (out : Path) (t0 : Q) (D : Z) (n fuel : nat)
         (st : State),
    (forall i, i < n ->
       Qltb (time_time env (n_clock st + i) - t0)%Q (inject_Z D) = true
       /\ fst (read_result env h (n_reads st + i)) = true) ->
    Qltb (time_time env (n_clock st + n) - t0)%Q (inject_Z D) = true ->
    fst (read_result env h (n_reads st + n)) = false ->
    n < fuel ->
    record_frames env fuel h out t0 D st
    = (Returned tt,
       {| n_caps := n_caps st; n_reads := S (n_reads st + n);
          n_clock := S (n_clock st + n); n_dates := n_dates st;
          trace := trace st ++ recorded env h out (n_reads st) n
                   ++ [ERead h] |}).
Proof.
  intros env h out t0 D n. induction n as [|n IH];
    intros fuel st Hlt Ht Hr Hfuel; (destruct fuel as [|fuel]; [lia|]).
  - simpl. step. rewrite Nat.add_0_r in Ht, Hr. rewrite Ht. cbn.
    rewrite Hr. cbn. rewrite !Nat.add_0_r. reflexivity.
  - destruct (Hlt 0) as [Ht0 Hr0]; [lia|]. rewrite Nat.add_0_r in Ht0, Hr0.
    rewrite record_frames_round by assumption.
    rewrite IH; simpl.
    + rewrite <- !app_assoc, <- !plus_n_Sm. reflexivity.
    + intros i Hi. specialize (Hlt (S i)). rewrite <- !plus_n_Sm in Hlt.
      apply Hlt. lia.
    + rewrite <- plus_n_Sm in Ht. exact Ht.
    + rewrite <- plus_n_Sm in Hr. exact Hr.
    + lia.
Qed.

(** The first index at which a boolean sequence is [false]. *)
Lemma first_false (f : nat -> bool) :
  (exists m, f m = false) ->
  exists n, f n = false /\ forall i, i < n -> f i = true.
Proof.
  intros [m Hm]. revert Hm.
  induction m as [m IH] using (well_founded_induction lt_wf). intros Hm.
  destruct (forallb f (seq 0 m)) eqn:E.
  - exists m. split; [exact Hm|]. intros i Hi.
    rewrite forallb_forall in E. apply E. apply in_seq. lia.
  - assert (Hex : exists i, i < m /\ f i = false).
    { clear IH Hm. induction m as [|m IHm]; [discriminate|].
      rewrite seq_S, forallb_app in E. simpl in E.
      destruct (forallb f (seq 0 m)) eqn:E'.
      - exists m. split; [lia|]. destruct (f m); [discriminate|reflexivity].
      - destruct (IHm eq_refl) as [i [Hi Hf]]. exists i. split; [lia|exact Hf]. }
    destruct Hex as [i [Hi Hf]]. exact (IH i Hi Hf).
Qed.

(** Each round of the recording loop appends exactly one frame. *)
Lemma recorded_frame_count (env : Env) (h : nat) (out : Path) (j n : nat) :
  length (filter is_frame_write (recorded env h out j n)) = n.
Proof.
  revert j. induction n as [|n IH]; intros j; simpl; [reflexivity|].
  rewrite IH. reflexivity.
Qed.

(** C4. A video capture whose stream delivers [n] frames and then fails a
    read while the requested duration has not elapsed: the loop stops at the
    failed read, capture and writer are released, and the attempt is printed
    as saved; nothing else is printed and no exception is raised. *)
Theorem C4_dropped_stream_is_saved :
  forall (env : Env) (name url : pystr) (D : Z) (p : Path) (fps n fuel : nat)
         (st : State),
    is_opened env (n_caps st) url = true ->
    (forall i, i < n -> fst (read_result env (n_caps st) i) = true) ->
    fst (read_result env (n_caps st) n) = false ->
    (forall i, i <= n ->
       (time_time env (S (n_clock st) + i) - time_time env (n_clock st)
        < inject_Z D)%Q) ->
    n < fuel ->
    save_video env fuel name url D p fps st
    = (Returned tt,
       {| n_caps := S (n_caps st); n_reads := S n;
          n_clock := S (S (n_clock st + n)); n_dates := n_dates st;
          trace :=
            trace st
            ++ [EOpen (n_caps st) url; ESetBuffer (n_caps st);
                EWriterOpen p fps (frame_width env (n_caps st))
                  (frame_height env (n_caps st));
                EPrint (MsgSavingVideo name p D)]
            ++ recorded env (n_caps st) p 0 n
            ++ [ERead (n_caps st); ERelease (n_caps st); EWriterRelease p;
                EPrint (MsgSavedVideo name p (frame_width env (n_caps st))
                          (frame_height env (n_caps st)))] |}).
Proof.
  intros env name url D p fps n fuel st Hopen Hframes Hdrop Htime Hfuel.
  unfold save_video, VideoCapture. step. rewrite Hopen. cbn.
  rewrite (@record_frames_dropped env (n_caps st) p
             (time_time env (n_clock st)) D n fuel); cbn.
  - tidy. reflexivity.
  - intros i Hi. split; [apply Qltb_lt, Htime; lia | apply Hframes, Hi].
  - apply Qltb_lt, Htime. lia.
  - exact Hdrop.
  - exact Hfuel.
Qed.

(** The same on a stream that delivers two frames and then drops, with
    ten seconds requested. *)
Lemma C4_dropped_stream_is_saved_witness :
  save_video drops_after_two 5 (lit "porch") (lit "rtsp://10.0.0.1/live") 10
    clip_path 25 initial
  = (Returned tt,
     {| n_caps := 1; n_reads := 3; n_clock := 4; n_dates := 0;
        trace :=
          [EOpen 0 (lit "rtsp://10.0.0.1/live"); ESetBuffer 0;
           EWriterOpen clip_path 25 640 480;
           EPrint (MsgSavingVideo (lit "porch") clip_path 10)]
          ++ recorded drops_after_two 0 clip_path 0 2
          ++ [ERead 0; ERelease 0; EWriterRelease clip_path;
              EPrint (MsgSavedVideo (lit "porch") clip_path 640 480)] |}).
Proof.
  apply (@C4_dropped_stream_is_saved drops_after_two (lit "porch")
           (lit "rtsp://10.0.0.1/live") 10 clip_path 25 2 5 initial).
  - reflexivity.
  - intros i Hi. destruct i as [|[|i]]; [reflexivity | reflexivity | lia].
  - reflexivity.
  - intros i Hi. destruct i as [|[|[|i]]]; [reflexivity .. | lia].
  - lia.
Defined.

(** C5. A video capture on which no read fails, under a clock that at some
    reading shows the requested duration [D] as elapsed: [save_video]
    returns (for every fuel above the number [n] of rounds), every reading
    at which the loop went round showed less than [D], the reading at which
    it stopped showed at least [D], and a frame was appended in each of the
    [n] rounds, whatever their number. *)
Theorem C5_recording_ends_when_duration_elapsed :
  forall (env : Env) (name url : pystr) (D : Z) (p : Path) (fps : nat)
         (st : State),
    is_opened env (n_caps st) url = true ->
    (forall j, fst (read_result env (n_caps st) j) = true) ->
    (exists m,
       (inject_Z D
        <= time_time env (S (n_clock st) + m) - time_time env (n_clock st))%Q) ->
    exists n,
      (forall i, i < n ->
         (time_time env (S (n_clock st) + i) - time_time env (n_clock st)
          < inject_Z D)%Q)
      /\ (inject_Z D
          <= time_time env (S (n_clock st) + n) - time_time env (n_clock st))%Q
      /\ length (filter is_frame_write (recorded env (n_caps st) p 0 n)) = n
      /\ forall fuel, n < fuel ->
           save_video env fuel name url D p fps st
           = (Returned tt,
              {| n_caps := S (n_caps st); n_reads := n;
                 n_clock := S (S (n_clock st + n)); n_dates := n_dates st;
                 trace :=
                   trace st
                   ++ [EOpen (n_caps st) url; ESetBuffer (n_caps st);
                       EWriterOpen p fps (frame_width env (n_caps st))
                         (frame_height env (n_caps st));
                       EPrint (MsgSavingVideo name p D)]
                   ++ recorded env (n_caps st) p 0 n
                   ++ [ERelease (n_caps st); EWriterRelease p;
                       EPrint (MsgSavedVideo name p
                                 (frame_width env (n_caps st))
                                 (frame_height env (n_caps st)))] |}).
Proof.
  intros env name url D p fps st Hopen Hreads Hclock.
  set (t0 := time_time env (n_clock st)) in *.
  destruct (@first_false
              (fun i => Qltb (time_time env (S (n_clock st) + i) - t0)%Q
                             (inject_Z D))) as [n [Hn Hbelow]].
  { destruct Hclock as [m Hm]. exists m. apply Qltb_ge. exact Hm. }
  exists n. split; [|split; [|split]].
  - intros i Hi. apply Qltb_lt. apply Hbelow, Hi.
  - apply Qltb_ge. exact Hn.
  - apply recorded_frame_count.
  - intros fuel Hfuel.
    unfold save_video, VideoCapture. step. rewrite Hopen. cbn.
    rewrite (@record_frames_elapsed env (n_caps st) p t0 D n fuel); cbn.
    + tidy. reflexivity.
    + intros i Hi. split; [apply Hbelow, Hi | apply Hreads].
    + exact Hn.
    + exact Hfuel.
Qed.

(** The same for three seconds requested from a stream that always
    delivers, under a clock that ticks once a second. *)
Lemma C5_recording_ends_when_duration_elapsed_witness :
  exists n,
    (forall i, i < n ->
       (time_time sunny (S (n_clock initial) + i)
        - time_time sunny (n_clock initial) < inject_Z 3)%Q)
    /\ (inject_Z 3
        <= time_time sunny (S (n_clock initial) + n)
           - time_time sunny (n_clock initial))%Q
    /\ length (filter is_frame_write
                 (recorded sunny (n_caps initial) clip_path 0 n)) = n
    /\ forall fuel, n < fuel ->
         save_video sunny fuel (lit "porch") (lit "rtsp://10.0.0.1/live") 3
           clip_path 25 initial
         = (Returned tt,
            {| n_caps := S (n_caps initial); n_reads := n;
               n_clock := S (S (n_clock initial + n));
               n_dates := n_dates initial;
               trace :=
                 trace initial
                 ++ [EOpen (n_caps initial) (lit "rtsp://10.0.0.1/live");
                     ESetBuffer (n_caps initial);
                     EWriterOpen clip_path 25
                       (frame_width sunny (n_caps initial))
                       (frame_height sunny (n_caps initial));
                     EPrint (MsgSavingVideo (lit "porch") clip_path 3)]
                 ++ recorded sunny (n_caps initial) clip_path 0 n
                 ++ [ERelease (n_caps initial); EWriterRelease clip_path;
                     EPrint (MsgSavedVideo (lit "porch") clip_path
                               (frame_width sunny (n_caps initial))
                               (frame_height sunny (n_caps initial)))] |}).
Proof.
  apply (@C5_recording_ends_when_duration_elapsed sunny (lit "porch")
           (lit "rtsp://10.0.0.1/live") 3 clip_path 25 initial).
  - reflexivity.
  - intros j. reflexivity.
  - exists 2. vm_compute. discriminate.
Defined.

(** ** What the loop body calls *)


Lemma dispatch_format_supported (d : device) :
  dispatch_format d = lit "jpg" \/ dispatch_format d = lit "mp4".
Proof.
  unfold dispatch_format.
  destruct (str_in (get (fileformat d) (lit "mp4")) SUPPORTED_FORMATS) eqn:E.
  - unfold str_in, SUPPORTED_FORMATS in E. simpl in E.
    rewrite orb_false_r in E. apply orb_true_iff in E.
    destruct E as [E|E]; apply pystr_eqb_eq in E; auto.
  - left. reflexivity.
Qed.

Opaque strftime joinpath safe_filename lit str_in.

(** A record that is not skipped reaches [record_rtsp_stream] after its
    [preamble], with the path [target] built from the one calendar reading
    taken for it and with the format [dispatch_format]. *)
Lemma process_device_call :
  forall (env : Env) (fuel : nat) (d : device) (st : State),
    process_device env fuel d st
    = if dispatched d
      then record_rtsp_stream env fuel
             (get (camera_name d) []) (get (camera_url d) [])
             (target (unicode env) d (datetime_now env (n_dates st)))
             (dispatch_format d) (get (duration d) DEFAULT_DURATION)
             {| n_caps := n_caps st; n_reads := n_reads st;
                n_clock := n_clock st; n_dates := S (n_dates st);
                trace := trace st ++ preamble (unicode env) d |}
      else print MsgSkipping st.
Proof.
  intros env fuel d st.
  unfold process_device, dispatched, target, segment, preamble, out_dir,
    dispatch_format.
  destruct (missing (camera_url d) || missing (camera_name d)); simpl;
    [reflexivity|].
  destruct (str_in (get (fileformat d) (lit "mp4")) SUPPORTED_FORMATS);
    destruct (truthy (safe_filename (unicode env)
                        (get (directory d) (lit ""))));
    unfold bind, now_date; tidy; reflexivity.
Qed.

Transparent strftime joinpath safe_filename lit str_in.

(** ** The unsupported-format branch *)

Lemma wait_keyframe_supported :
  forall (env : Env) (fuel h : nat) (t0 : Q) (st : State),
    is_unsupported (fst (wait_keyframe env fuel h t0 st)) = false.
Proof.
  intros env fuel h t0. induction fuel as [|fuel IH]; intros st;
    [reflexivity|].
  simpl. step.
  destruct (Qltb _ _); [|reflexivity]. cbn.
  destruct (read_result env h (n_reads st)) as [[|] [frm|]]; cbn;
    try reflexivity; apply IH.
Qed.

Lemma record_frames_supported :
  forall (env : Env) (fuel h : nat) (out : Path) (t0 : Q) (D : Z) (st : State),
    is_unsupported (fst (record_frames env fuel h out t0 D st)) = false.
Proof.
  intros env fuel h out t0 D. induction fuel as [|fuel IH]; intros st;
    [reflexivity|].
  simpl. step.
  destruct (Qltb _ _); [|reflexivity]. cbn.
  destruct (fst (read_result env h (n_reads st))); cbn;
    [apply IH | reflexivity].
Qed.

Lemma save_snapshot_supported :
  forall (env : Env) (fuel : nat) (name url : pystr) (p : Path) (st : State),
    is_unsupported (fst (save_snapshot env fuel name url p st)) = false.
Proof.
  intros env fuel name url p st.
  unfold save_snapshot, VideoCapture. step.
  destruct (is_opened env (n_caps st) url); cbn; [|reflexivity].
  match goal with
  | |- context [wait_keyframe env fuel ?h ?t0 ?s] =>
      pose proof (wait_keyframe_supported env fuel h t0 s) as Hw;
      destruct (wait_keyframe env fuel h t0 s) as [[frm|e|] s']
  end; cbn in *; try assumption; try reflexivity.
  destruct (imwrite env p frm); try reflexivity.
  destruct frm; reflexivity.
Qed.

Lemma save_video_supported :
  forall (env : Env) (fuel : nat) (name url : pystr) (D : Z) (p : Path)
         (fps : nat) (st : State),
    is_unsupported (fst (save_video env fuel name url D p fps st)) = false.
Proof.
  intros env fuel name url D p fps st.
  unfold save_video, VideoCapture. step.
  destruct (is_opened env (n_caps st) url); cbn; [|reflexivity].
  match goal with
  | |- context [record_frames env fuel ?h ?o ?t0 ?d ?s] =>
      pose proof (record_frames_supported env fuel h o t0 d s) as Hw;
      destruct (record_frames env fuel h o t0 d s) as [[[]|e|] s']
  end; cbn in *; try assumption; reflexivity.
Qed.

Lemma record_rtsp_stream_supported :
  forall (env : Env) (fuel : nat) (name url : pystr) (p : Path) (ff : pystr)
         (D : Z) (st : State),
    ff = lit "jpg" \/ ff = lit "mp4" ->
    is_unsupported (fst (record_rtsp_stream env fuel name url p ff D st))
    = false.
Proof.
  intros env fuel name url p ff D st [-> | ->]; unfold record_rtsp_stream.
  - rewrite pystr_eqb_refl. apply save_snapshot_supported.
  - replace (pystr_eqb (lit "mp4") (lit "jpg")) with false by reflexivity.
    rewrite pystr_eqb_refl. apply save_video_supported.
Qed.

Lemma process_device_supported :
  forall (env : Env) (fuel : nat) (d : device) (st : State),
    is_unsupported (fst (process_device env fuel d st)) = false.
Proof.
  intros env fuel d st. rewrite process_device_call.
  destruct (dispatched d); [|reflexivity].
  apply record_rtsp_stream_supported, dispatch_format_supported.
Qed.

Lemma for_devices_supported :
  forall (env : Env) (fuel : nat) (devices : list device) (st : State),
    is_unsupported (fst (for_devices env fuel devices st)) = false.
Proof.
  intros env fuel devices. induction devices as [|d rest IH]; intros st;
    [reflexivity|].
  simpl. unfold bind.
  pose proof (process_device_supported env fuel d st) as Hd.
  destruct (process_device env fuel d st) as [[[]|e|] st']; cbn in *;
    [apply IH | assumption | reflexivity].
Qed.

(** C6. Whatever its [fileformat] field, a record that is not skipped
    reaches [record_rtsp_stream] with the format ["jpg"] or ["mp4"] (any
    other value has been replaced by ["jpg"]), and no run of [main] ends in
    the [ValueError] for an unsupported format. *)
Theorem C6_unsupported_format_unreachable :
  forall (env : Env) (fuel : nat) (d : device) (st : State),
    (dispatch_format d = lit "jpg" \/ dispatch_format d = lit "mp4")
    /\ dispatch_format d
       = (if str_in (get (fileformat d) (lit "mp4")) [lit "jpg"; lit "mp4"]
          then get (fileformat d) (lit "mp4") else lit "jpg")
    /\ process_device env fuel d st
       = (if dispatched d
          then record_rtsp_stream env fuel
                 (get (camera_name d) []) (get (camera_url d) [])
                 (target (unicode env) d (datetime_now env (n_dates st)))
                 (dispatch_format d) (get (duration d) DEFAULT_DURATION)
                 {| n_caps := n_caps st; n_reads := n_reads st;
                    n_clock := n_clock st; n_dates := S (n_dates st);
                    trace := trace st ++ preamble (unicode env) d |}
          else print MsgSkipping st)
    /\ (forall (config : config_file),
          is_unsupported (fst (main env fuel config st)) = false).
Proof.
  intros env fuel d st.
  split; [apply dispatch_format_supported|].
  split; [reflexivity|].
  split; [apply process_device_call|].
  intros [| |devices]; try reflexivity.
  destruct devices as [|d0 rest]; [reflexivity|].
  apply for_devices_supported.
Qed.

(** ** Output paths *)

(** C7. A record with no [filename] and the format ["mp4"], dispatched at
    2025-03-09 12:00:07: the path handed to the video writer is
    [snapshots_rtsp/20250309_120007_video.mp4.mp4].  The default file name
    is ["video.mp4"], not ["video"], so the extension comes twice and the
    path does not end in ["_video.mp4"]. *)
Theorem C7_default_filename_doubles_extension :
  let run := main sunny 20 (Devices [porch_mp4]) initial in
  let p := target ascii_db porch_mp4 noon in
  filename porch_mp4 = None
  /\ fileformat porch_mp4 = Some (lit "mp4")
  /\ fst run = Returned tt
  /\ nth_error (trace (snd run)) 3 = Some (EWriterOpen p 25 640 480)
  /\ str_of_path p = lit "snapshots_rtsp/20250309_120007_video.mp4.mp4"
  /\ ends_with (lit "_video.mp4.mp4") (str_of_path p) = true
  /\ ends_with (lit "_video.mp4") (str_of_path p) = false.
Proof.
  repeat split; vm_compute; reflexivity.
Qed.

(** *** Splitting and joining *)

Lemma split_on_app (sep : char) (a b w : pystr) (ws : list pystr) :
  Forall (fun c => char_eqb c sep = false) a ->
  split_on sep b = w :: ws ->
  split_on sep (a ++ b) = (a ++ w) :: ws.
Proof.
  intros Ha Hb. induction Ha as [|c a Hc Ha IH]; simpl; [exact Hb|].
  rewrite Hc, IH. reflexivity.
Qed.

Lemma pystr_eqb_length (a b : pystr) :
  pystr_eqb a b = true -> length a = length b.
Proof.
  intros H. apply pystr_eqb_eq in H. subst. reflexivity.
Qed.

Lemma digit_not_slash (n : nat) : char_eqb (digit n) slash = false.
Proof.
  unfold char_eqb, digit, slash. apply N.eqb_neq. lia.
Qed.

Lemma strftime_no_slash (dt : datetime) :
  Forall (fun c => char_eqb c slash = false) (strftime dt).
Proof.
  unfold strftime, four_digits, two_digits. simpl.
  repeat (constructor; [first [apply digit_not_slash | reflexivity]|]).
  constructor.
Qed.

Lemma strftime_length (dt : datetime) : length (strftime dt) = 15.
Proof. reflexivity. Qed.

Lemma segment_relative (d : device) (dt : datetime) :
  is_abs (parse_path (segment d dt)) = false.
Proof.
  unfold parse_path, segment, strftime, four_digits. simpl.
  apply digit_not_slash.
Qed.

(** The segment starts with the timestamp, so it is never an absolute
    path: joining it keeps the directory and appends the components of the
    segment as they are written in it. *)
Lemma target_parts (U : unicode_db) (d : device) (dt : datetime) :
  target U d dt
  = {| is_abs := is_abs (out_dir U d);
       parts := parts (out_dir U d)
                ++ filter real_part (split_on slash (segment d dt)) |}.
Proof.
  unfold target, joinpath. rewrite segment_relative. reflexivity.
Qed.

(** *** Normalisation *)

Lemma norm_parts_app (acc a b : list pystr) :
  norm_parts acc (a ++ b) = norm_parts (rev (norm_parts acc a)) b.
Proof.
  revert acc. induction a as [|w a IH]; intros acc; simpl.
  - rewrite rev_involutive. reflexivity.
  - destruct (pystr_eqb w dotdot).
    + destruct acc as [|top below]; [apply IH|].
      destruct (pystr_eqb top dotdot); apply IH.
    + apply IH.
Qed.

Lemma strip_prefix_app (a b c : list pystr) :
  strip_prefix (a ++ b) (a ++ c) = strip_prefix b c.
Proof.
  induction a as [|x a IH]; simpl; [reflexivity|].
  rewrite pystr_eqb_refl. exact IH.
Qed.

Lemma strip_prefix_self (a c : list pystr) :
  strip_prefix a (a ++ c) = Some c.
Proof.
  rewrite <- (app_nil_r a) at 1. rewrite strip_prefix_app.
  reflexivity.
Qed.

(** A name, two steps up and another name: wherever one starts, one ends
    up beside the starting directory, not below it. *)
Lemma two_up_escapes (dir : Path) (name x : pystr) :
  pystr_eqb name dotdot = false ->
  pystr_eqb x dotdot = false ->
  inside dir {| is_abs := is_abs dir;
                parts := parts dir ++ [name; dotdot; dotdot; x] |} = false.
Proof.
  intros Hname Hx. unfold inside, normpath. simpl.
  rewrite norm_parts_app.
  remember (norm_parts [] (parts dir)) as base eqn:Hbase.
  rewrite <- (rev_involutive base) at 1.
  remember (rev base) as stack eqn:Hstack.
  simpl. rewrite Hname, Hx.
  apply andb_false_iff. right.
  destruct stack as [|top below]; [reflexivity|].
  destruct (pystr_eqb top dotdot) eqn:Htop.
  - rewrite <- app_assoc, strip_prefix_self. reflexivity.
  - change (rev (top :: below)) with (rev below ++ [top]).
    rewrite strip_prefix_app. simpl.
    destruct (pystr_eqb top x); reflexivity.
Qed.

Lemma real_part_long (w : pystr) : 2 <= length w -> real_part w = true.
Proof.
  intros H. unfold real_part.
  destruct (pystr_eqb w []) eqn:E1;
    [apply pystr_eqb_length in E1; simpl in E1; lia|].
  destruct (pystr_eqb w [dot]) eqn:E2;
    [apply pystr_eqb_length in E2; simpl in E2; lia|].
  reflexivity.
Qed.

Lemma not_dotdot_long (w : pystr) :
  3 <= length w -> pystr_eqb w dotdot = false.
Proof.
  intros H. destruct (pystr_eqb w dotdot) eqn:E; [|reflexivity].
  apply pystr_eqb_length in E. simpl in E. lia.
Qed.

(** The components of the segment for the file name ["a/../../x"]. *)
Lemma climbing_segment (d : device) (dt : datetime) :
  filter real_part (split_on slash (segment (named d "a/../../x") dt))
  = [strftime dt ++ lit "_a"; dotdot; dotdot; lit "x." ++ dispatch_format d].
Proof.
  unfold segment.
  change (dispatch_format (named d "a/../../x")) with (dispatch_format d).
  change (get (filename (named d "a/../../x")) (lit "video.mp4"))
    with (lit "a/../../x").
  assert (Hlen : 2 <= length (strftime dt ++ lit "_a"))
    by (rewrite length_app, strftime_length; simpl; lia).
  destruct (dispatch_format_supported d) as [-> | ->].
  - rewrite (@split_on_app slash (strftime dt)
               (underscore :: lit "a/../../x" ++ dot :: lit "jpg") (lit "_a")
               [dotdot; dotdot; lit "x.jpg"] (strftime_no_slash dt) eq_refl).
    cbn [filter]. rewrite (real_part_long _ Hlen). reflexivity.
  - rewrite (@split_on_app slash (strftime dt)
               (underscore :: lit "a/../../x" ++ dot :: lit "mp4") (lit "_a")
               [dotdot; dotdot; lit "x.mp4"] (strftime_no_slash dt) eq_refl).
    cbn [filter]. rewrite (real_part_long _ Hlen). reflexivity.
Qed.

(** ** A failed open inside the batch *)

(** A snapshot record whose stream cannot be opened ends the batch: the
    records after it are not looked at. *)
Lemma snapshot_failure_ends_batch :
  forall (env : Env) (fuel : nat) (d : device) (rest : list device)
         (st : State),
    dispatched d = true ->
    dispatch_format d = lit "jpg" ->
    is_opened env (n_caps st) (get (camera_url d) []) = false ->
    for_devices env fuel (d :: rest) st
    = (Raised SystemExit,
       {| n_caps := S (n_caps st); n_reads := 0; n_clock := n_clock st;
          n_dates := S (n_dates st);
          trace := trace st ++ preamble (unicode env) d
                   ++ [EOpen (n_caps st) (get (camera_url d) []);
                       EPrint (MsgSnapshotNotOpened (get (camera_url d) []))] |}).
Proof.
  intros env fuel d rest st Hd Hff Hopen.
  apply for_devices_raised.
  rewrite process_device_call, Hd, Hff.
  unfold record_rtsp_stream. rewrite pystr_eqb_refl.
  rewrite save_snapshot_not_opened by exact Hopen.
  simpl. rewrite <- app_assoc. reflexivity.
Qed.

(** A video record whose stream cannot be opened is reported, and the loop
    goes on with the records after it. *)
Lemma video_failure_continues :
  forall (env : Env) (fuel : nat) (d : device) (rest : list device)
         (st : State),
    dispatched d = true ->
    dispatch_format d = lit "mp4" ->
    is_opened env (n_caps st) (get (camera_url d) []) = false ->
    for_devices env fuel (d :: rest) st
    = for_devices env fuel rest
        {| n_caps := S (n_caps st); n_reads := 0; n_clock := n_clock st;
           n_dates := S (n_dates st);
           trace := trace st ++ preamble (unicode env) d
                    ++ [EOpen (n_caps st) (get (camera_url d) []);
                        ESetBuffer (n_caps st);
                        EPrint (MsgVideoNotOpened (get (camera_name d) [])
                                  (get (camera_url d) []))] |}.
Proof.
  intros env fuel d rest st Hd Hff Hopen.
  simpl. unfold bind.
  rewrite process_device_call, Hd, Hff.
  unfold record_rtsp_stream.
  replace (pystr_eqb (lit "mp4") (lit "jpg")) with false by reflexivity.
  rewrite pystr_eqb_refl.
  rewrite save_video_not_opened by exact Hopen.
  simpl. rewrite <- app_assoc. reflexivity.
Qed.

(** ** One calendar reading for each record *)

Lemma dates_kept_bind (A B : Type) (m : M A) (k : A -> M B) :
  dates_kept m -> (forall a, dates_kept (k a)) -> dates_kept (bind m k).
Proof.
  intros Hm Hk st. unfold bind. specialize (Hm st).
  destruct (m st) as [[a|e|] st']; simpl in *; [|assumption..].
  rewrite Hk. exact Hm.
Qed.

Lemma dates_kept_emit (e : event) : dates_kept (emit e).
Proof. intros st. reflexivity. Qed.

Lemma dates_kept_ret (A : Type) (a : A) : dates_kept (ret a).
Proof. intros st. reflexivity. Qed.

Lemma dates_kept_raise (A : Type) (e : exn) : dates_kept (@raise A e).
Proof. intros st. reflexivity. Qed.

Lemma dates_kept_now_time (env : Env) : dates_kept (now_time env).
Proof. intros st. reflexivity. Qed.

Lemma dates_kept_cap_read (env : Env) (h : nat) : dates_kept (cap_read env h).
Proof. intros st. reflexivity. Qed.

Lemma dates_kept_VideoCapture (url : pystr) : dates_kept (VideoCapture url).
Proof. intros st. reflexivity. Qed.

Create HintDb dates.
#[local] Hint Resolve dates_kept_emit dates_kept_ret dates_kept_raise
  dates_kept_now_time dates_kept_cap_read dates_kept_VideoCapture : dates.

Ltac dates_step :=
  first [ apply dates_kept_bind; [|intros ?]
        | solve [unfold print; auto with dates] ].

Lemma dates_kept_wait_keyframe (env : Env) (fuel h : nat) (t0 : Q) :
  dates_kept (wait_keyframe env fuel h t0).
Proof.
  induction fuel as [|fuel IH]; simpl; [intros st; reflexivity|].
  dates_step; [dates_step|].
  destruct (Qltb _ _); [|dates_step].
  dates_step; [dates_step|].
  destruct a0 as [[|] [frm|]]; repeat dates_step; exact IH.
Qed.

Lemma dates_kept_record_frames (env : Env) (fuel h : nat) (out : Path)
    (t0 : Q) (D : Z) :
  dates_kept (record_frames env fuel h out t0 D).
Proof.
  induction fuel as [|fuel IH]; simpl; [intros st; reflexivity|].
  dates_step; [dates_step|].
  destruct (Qltb _ _); [|dates_step].
  dates_step; [dates_step|].
  destruct (negb (fst a0)); repeat dates_step; exact IH.
Qed.

Lemma dates_kept_record_rtsp_stream (env : Env) (fuel : nat)
    (name url : pystr) (p : Path) (ff : pystr) (D : Z) :
  dates_kept (record_rtsp_stream env fuel name url p ff D).
Proof.
  unfold record_rtsp_stream.
  destruct (pystr_eqb ff (lit "jpg")); [|destruct (pystr_eqb ff (lit "mp4"))].
  - unfold save_snapshot. dates_step; [dates_step|].
    dates_step; [destruct (negb _); repeat dates_step|].
    dates_step; [dates_step|]. dates_step; [dates_step|].
    dates_step; [apply dates_kept_wait_keyframe|].
    dates_step; [dates_step|].
    destruct (imwrite env p a3); [destruct a3| |]; repeat dates_step.
  - unfold save_video. dates_step; [dates_step|].
    dates_step; [dates_step|].
    destruct (negb _); [dates_step|].
    dates_step; [dates_step|]. dates_step; [dates_step|].
    dates_step; [dates_step|].
    dates_step; [apply dates_kept_record_frames|].
    repeat dates_step.
  - dates_step.
Qed.

(** The loop body takes one calendar reading for a record it dispatches,
    none for a record it skips, and [record_rtsp_stream] takes none of its
    own: the timestamp in the path is computed once. *)
Lemma one_timestamp_per_device :
  forall (env : Env) (fuel : nat) (d : device) (st : State),
    n_dates (snd (process_device env fuel d st))
    = if dispatched d then S (n_dates st) else n_dates st.
Proof.
  intros env fuel d st. rewrite process_device_call.
  destruct (dispatched d); [|reflexivity].
  rewrite dates_kept_record_rtsp_stream. reflexivity.
Qed.

(** * Further properties *)

(** ** What the two loops can log *)

(** The keyframe loop raises nothing, constructs no capture and logs only
    reads of its capture and naps. *)
Lemma wait_keyframe_log :
  forall (env : Env) (fuel h : nat) (t0 : Q) (st : State),
    is_raised (fst (wait_keyframe env fuel h t0 st)) = false
    /\ n_caps (snd (wait_keyframe env fuel h t0 st)) = n_caps st
    /\ exists polls,
         trace (snd (wait_keyframe env fuel h t0 st)) = trace st ++ polls
         /\ forallb (poll_event h) polls = true.
Proof.
  intros env fuel h t0. induction fuel as [|fuel IH]; intros st.
  - simpl. repeat split. exists []. rewrite app_nil_r. auto.
  - simpl. step.
    destruct (Qltb _ _); cbn;
      [|repeat split; exists []; rewrite app_nil_r; auto].
    assert (Hgo :
      let st1 := {| n_caps := n_caps st; n_reads := S (n_reads st);
                    n_clock := S (n_clock st); n_dates := n_dates st;
                    trace := (trace st ++ [ERead h]) ++ [ESleep] |} in
      is_raised (fst (wait_keyframe env fuel h t0 st1)) = false
      /\ n_caps (snd (wait_keyframe env fuel h t0 st1)) = n_caps st
      /\ exists polls,
           trace (snd (wait_keyframe env fuel h t0 st1)) = trace st ++ polls
           /\ forallb (poll_event h) polls = true).
    { intros st1. destruct (IH st1) as [Hr [Hc [polls [Ht Hp]]]].
      repeat split; [exact Hr | exact Hc|].
      exists (ERead h :: ESleep :: polls). split.
      - rewrite Ht. subst st1. simpl. rewrite <- !app_assoc. reflexivity.
      - simpl. rewrite Nat.eqb_refl. exact Hp. }
    destruct (read_result env h (n_reads st)) as [[|] [frm|]]; cbn;
      try exact Hgo.
    repeat split. exists [ERead h]. simpl. rewrite Nat.eqb_refl. auto.
Qed.

(** The recording loop raises nothing, constructs no capture and logs only
    reads of its capture and frames appended to its writer. *)
Lemma record_frames_log :
  forall (env : Env) (fuel h : nat) (out : Path) (t0 : Q) (D : Z) (st : State),
    is_raised (fst (record_frames env fuel h out t0 D st)) = false
    /\ n_caps (snd (record_frames env fuel h out t0 D st)) = n_caps st
    /\ exists frames,
         trace (snd (record_frames env fuel h out t0 D st))
         = trace st ++ frames
         /\ forallb (record_event h out) frames = true.
Proof.
  intros env fuel h out t0 D. induction fuel as [|fuel IH]; intros st.
  - simpl. repeat split. exists []. rewrite app_nil_r. auto.
  - simpl. step.
    destruct (Qltb _ _); cbn;
      [|repeat split; exists []; rewrite app_nil_r; auto].
    destruct (fst (read_result env h (n_reads st))); cbn.
    + match goal with
      | |- context [record_frames env fuel h out t0 D ?s] =>
          destruct (IH s) as [Hr [Hc [frames [Ht Hp]]]]
      end.
      repeat split; [exact Hr | exact Hc|].
      exists (ERead h :: EWriterWrite out (snd (read_result env h (n_reads st)))
              :: frames).
      split.
      * rewrite Ht. simpl. rewrite <- !app_assoc. reflexivity.
      * simpl. rewrite Nat.eqb_refl. simpl.
        replace (parts_eqb (parts out) (parts out)) with true; [exact Hp|].
        symmetry. clear. induction (parts out) as [|w ws IHw]; simpl;
          [reflexivity | rewrite pystr_eqb_refl; exact IHw].
    + repeat split. exists [ERead h]. simpl. rewrite Nat.eqb_refl. auto.
Qed.

(** ** Captures that return *)

(** [save_video] raises nothing. *)
Lemma save_video_never_raises :
  forall (env : Env) (fuel : nat) (name url : pystr) (D : Z) (p : Path)
         (fps : nat) (st : State),
    is_raised (fst (save_video env fuel name url D p fps st)) = false.
Proof.
  intros env fuel name url D p fps st.
  unfold save_video, VideoCapture. step.
  destruct (is_opened env (n_caps st) url); cbn; [|reflexivity].
  match goal with
  | |- context [record_frames env fuel ?h ?o ?t0 ?d ?s] =>
      destruct (record_frames_log env fuel h o t0 d s) as [Hr _];
      destruct (record_frames env fuel h o t0 d s) as [[[]|e|] s']
  end; cbn in *; try discriminate; reflexivity.
Qed.

(** Whenever [save_video] returns, it has either found the stream closed
    and done nothing but report it, without constructing a writer, or it
    has opened the writer, logged only reads and appended frames while
    recording, and released both the capture and the writer before the
    closing message. *)
Theorem save_video_returns_released :
  forall (env : Env) (fuel : nat) (name url : pystr) (D : Z) (p : Path)
         (fps : nat) (st : State),
    fst (save_video env fuel name url D p fps st) = Returned tt ->
    if is_opened env (n_caps st) url
    then exists frames,
           forallb (record_event (n_caps st) p) frames = true
           /\ trace (snd (save_video env fuel name url D p fps st))
              = trace st
                ++ [EOpen (n_caps st) url; ESetBuffer (n_caps st);
                    EWriterOpen p fps (frame_width env (n_caps st))
                      (frame_height env (n_caps st));
                    EPrint (MsgSavingVideo name p D)]
                ++ frames
                ++ [ERelease (n_caps st); EWriterRelease p;
                    EPrint (MsgSavedVideo name p (frame_width env (n_caps st))
                              (frame_height env (n_caps st)))]
    else trace (snd (save_video env fuel name url D p fps st))
         = trace st ++ [EOpen (n_caps st) url; ESetBuffer (n_caps st);
                        EPrint (MsgVideoNotOpened name url)].
Proof.
  intros env fuel name url D p fps st.
  unfold save_video, VideoCapture. step.
  destruct (is_opened env (n_caps st) url); cbn.
  - match goal with
    | |- context [record_frames env fuel ?h ?o ?t0 ?d ?s] =>
        destruct (record_frames_log env fuel h o t0 d s)
          as [_ [_ [frames [Ht Hp]]]];
        destruct (record_frames env fuel h o t0 d s) as [[[]|e|] s']
    end; cbn in *; try discriminate.
    intros _. exists frames. split; [exact Hp|].
    rewrite Ht. rewrite <- !app_assoc. cbn. rewrite <- ?app_assoc.
    reflexivity.
  - intros _. rewrite <- !app_assoc. reflexivity.
Qed.

(** The same on a stream that always delivers, three seconds requested. *)
Lemma save_video_returns_released_witness :
  exists frames,
    forallb (record_event 0 clip_path) frames = true
    /\ trace (snd (save_video sunny 9 (lit "porch") (lit "rtsp://10.0.0.1/live")
                     3 clip_path 25 initial))
       = [EOpen 0 (lit "rtsp://10.0.0.1/live"); ESetBuffer 0;
          EWriterOpen clip_path 25 640 480;
          EPrint (MsgSavingVideo (lit "porch") clip_path 3)]
         ++ frames
         ++ [ERelease 0; EWriterRelease clip_path;
             EPrint (MsgSavedVideo (lit "porch") clip_path 640 480)].
Proof.
  apply (@save_video_returns_released sunny 9 (lit "porch")
           (lit "rtsp://10.0.0.1/live") 3 clip_path 25 initial).
  vm_compute. reflexivity.
Defined.

(** Whenever [save_snapshot] returns, the stream was open, the polls it
    logged are reads and naps only, [cv2.imwrite] was called exactly once,
    and the capture was released last: after the message that the image
    could not be written, or after the message that reports the size of the
    frame that was written. *)
Theorem save_snapshot_returns_released :
  forall (env : Env) (fuel : nat) (name url : pystr) (p : Path) (st : State),
    fst (save_snapshot env fuel name url p st) = Returned tt ->
    is_opened env (n_caps st) url = true
    /\ exists polls frame m,
         forallb (poll_event (n_caps st)) polls = true
         /\ trace (snd (save_snapshot env fuel name url p st))
            = trace st ++ [EOpen (n_caps st) url; ESetBuffer (n_caps st)]
              ++ polls
              ++ [EImwrite p frame; EPrint m; ERelease (n_caps st)]
         /\ (m = MsgNotWritten name p
             \/ exists frm, frame = Some frm
                  /\ m = MsgSavedSnapshot name p (shape1 frm) (shape0 frm)).
Proof.
  intros env fuel name url p st.
  unfold save_snapshot, VideoCapture. step.
  destruct (is_opened env (n_caps st) url); cbn; [|discriminate].
  match goal with
  | |- context [wait_keyframe env fuel ?h ?t0 ?s] =>
      destruct (wait_keyframe_log env fuel h t0 s)
        as [_ [_ [polls [Ht Hp]]]];
      destruct (wait_keyframe env fuel h t0 s) as [[frame|e|] s']
  end; cbn in *; try discriminate.
  destruct (imwrite env p frame) eqn:Hw; cbn; try discriminate.
  - destruct frame as [frm|]; cbn; [|discriminate].
    intros _. split; [reflexivity|].
    exists polls, (Some frm),
      (MsgSavedSnapshot name p (shape1 frm) (shape0 frm)).
    split; [exact Hp|]. split.
    + rewrite Ht. rewrite <- !app_assoc. reflexivity.
    + right. exists frm. auto.
  - intros _. split; [reflexivity|].
    exists polls, frame, (MsgNotWritten name p).
    split; [exact Hp|]. split.
    + rewrite Ht. rewrite <- !app_assoc. reflexivity.
    + left. reflexivity.
Qed.

(** The same on a stream that delivers at the first read. *)
Lemma save_snapshot_returns_released_witness :
  is_opened sunny (n_caps initial) (lit "rtsp://10.0.0.1/live") = true
  /\ exists polls frame m,
       forallb (poll_event (n_caps initial)) polls = true
       /\ trace (snd (save_snapshot sunny 9 (lit "porch")
                        (lit "rtsp://10.0.0.1/live") shot_path initial))
          = trace initial
            ++ [EOpen (n_caps initial) (lit "rtsp://10.0.0.1/live");
                ESetBuffer (n_caps initial)]
            ++ polls
            ++ [EImwrite shot_path frame; EPrint m; ERelease (n_caps initial)]
       /\ (m = MsgNotWritten (lit "porch") shot_path
           \/ exists frm, frame = Some frm
                /\ m = MsgSavedSnapshot (lit "porch") shot_path
                         (shape1 frm) (shape0 frm)).
Proof.
  apply (@save_snapshot_returns_released sunny 9 (lit "porch")
           (lit "rtsp://10.0.0.1/live") shot_path initial).
  vm_compute. reflexivity.
Defined.

(** ** Records that are skipped *)

(** A record whose [camera_name] or [camera_url] is absent or empty costs
    one warning and nothing else: no directory is made, no calendar
    reading taken, no capture constructed, and the loop goes on with the
    records after it. *)
Theorem skipped_record_only_warns :
  forall (env : Env) (fuel : nat) (d : device) (rest : list device)
         (st : State),
    missing (camera_url d) || missing (camera_name d) = true ->
    for_devices env fuel (d :: rest) st
    = for_devices env fuel rest
        {| n_caps := n_caps st; n_reads := n_reads st; n_clock := n_clock st;
           n_dates := n_dates st;
           trace := trace st ++ [EPrint MsgSkipping] |}.
Proof.
  intros env fuel d rest st H. simpl. unfold bind.
  rewrite process_device_call. unfold dispatched. rewrite H. reflexivity.
Qed.

(** A record with an empty name in front of a video camera. *)
Lemma skipped_record_only_warns_witness :
  for_devices sunny 9
    [camera "" "rtsp://10.0.0.1/live" "jpg"; porch_mp4] initial
  = for_devices sunny 9 [porch_mp4]
      {| n_caps := 0; n_reads := 0; n_clock := 0; n_dates := 0;
         trace := [EPrint MsgSkipping] |}.
Proof.
  apply (@skipped_record_only_warns sunny 9
           (camera "" "rtsp://10.0.0.1/live" "jpg") [porch_mp4] initial).
  reflexivity.
Defined.

(** ** A duration that is not positive *)

(** With a requested duration of zero or less, under a clock that does not
    run backwards between its two readings, an opened stream is never read:
    the writer is opened and released with no frame in it, and the clip is
    reported as saved. *)
Theorem nonpositive_duration_records_nothing :
  forall (env : Env) (fuel : nat) (name url : pystr) (D : Z) (p : Path)
         (fps : nat) (st : State),
    is_opened env (n_caps st) url = true ->
    (D <= 0)%Z ->
    (time_time env (n_clock st) <= time_time env (S (n_clock st)))%Q ->
    0 < fuel ->
    save_video env fuel name url D p fps st
    = (Returned tt,
       {| n_caps := S (n_caps st); n_reads := 0;
          n_clock := S (S (n_clock st)); n_dates := n_dates st;
          trace :=
            trace st
            ++ [EOpen (n_caps st) url; ESetBuffer (n_caps st);
                EWriterOpen p fps (frame_width env (n_caps st))
                  (frame_height env (n_caps st));
                EPrint (MsgSavingVideo name p D);
                ERelease (n_caps st); EWriterRelease p;
                EPrint (MsgSavedVideo name p (frame_width env (n_caps st))
                          (frame_height env (n_caps st)))] |}).
Proof.
  intros env fuel name url D p fps st Hopen HD Hclock Hfuel.
  unfold save_video, VideoCapture. step. rewrite Hopen. cbn.
  rewrite (@record_frames_elapsed env (n_caps st) p
             (time_time env (n_clock st)) D 0 fuel); cbn.
  - tidy. rewrite !Nat.add_0_r. reflexivity.
  - intros i Hi. lia.
  - apply Qltb_ge. rewrite Nat.add_0_r.
    assert (HQ : (inject_Z D <= 0)%Q)
      by (change 0%Q with (inject_Z 0); rewrite <- Zle_Qle; exact HD).
    lra.
  - exact Hfuel.
Qed.

(** Zero seconds requested from a stream that would deliver. *)
Lemma nonpositive_duration_records_nothing_witness :
  save_video sunny 1 (lit "porch") (lit "rtsp://10.0.0.1/live") 0 clip_path 25
    initial
  = (Returned tt,
     {| n_caps := 1; n_reads := 0; n_clock := 2; n_dates := 0;
        trace :=
          [EOpen 0 (lit "rtsp://10.0.0.1/live"); ESetBuffer 0;
           EWriterOpen clip_path 25 640 480;
           EPrint (MsgSavingVideo (lit "porch") clip_path 0);
           ERelease 0; EWriterRelease clip_path;
           EPrint (MsgSavedVideo (lit "porch") clip_path 640 480)] |}).
Proof.
  apply (@nonpositive_duration_records_nothing sunny 1 (lit "porch")
           (lit "rtsp://10.0.0.1/live") 0 clip_path 25 initial).
  - reflexivity.
  - lia.
  - vm_compute. discriminate.
  - lia.
Defined.

(** ** The exceptions of a capture *)

Lemma save_snapshot_errors :
  forall (env : Env) (fuel : nat) (name url : pystr) (p : Path) (st : State),
    raises_only capture_error (fst (save_snapshot env fuel name url p st))
    = true.
Proof.
  intros env fuel name url p st.
  unfold save_snapshot, VideoCapture. step.
  destruct (is_opened env (n_caps st) url); cbn; [|reflexivity].
  match goal with
  | |- context [wait_keyframe env fuel ?h ?t0 ?s] =>
      destruct (wait_keyframe_log env fuel h t0 s) as [Hr _];
      destruct (wait_keyframe env fuel h t0 s) as [[frame|e|] s']
  end; cbn in *; try discriminate; try reflexivity.
  destruct (imwrite env p frame); try reflexivity.
  destruct frame; reflexivity.
Qed.

(** ** One capture and one timestamp for each record *)

Lemma record_rtsp_stream_caps :
  forall (env : Env) (fuel : nat) (name url : pystr) (p : Path) (ff : pystr)
         (D : Z) (st : State),
    ff = lit "jpg" \/ ff = lit "mp4" ->
    n_caps (snd (record_rtsp_stream env fuel name url p ff D st))
    = S (n_caps st).
Proof.
  intros env fuel name url p ff D st [-> | ->]; unfold record_rtsp_stream.
  - rewrite pystr_eqb_refl.
    unfold save_snapshot, VideoCapture. step.
    destruct (is_opened env (n_caps st) url); cbn; [|reflexivity].
    match goal with
    | |- context [wait_keyframe env fuel ?h ?t0 ?s] =>
        destruct (wait_keyframe_log env fuel h t0 s) as [_ [Hc _]];
        destruct (wait_keyframe env fuel h t0 s) as [[frame|e|] s']
    end; cbn in *; try exact Hc.
    destruct (imwrite env p frame); [destruct frame| |]; cbn; exact Hc.
  - replace (pystr_eqb (lit "mp4") (lit "jpg")) with false by reflexivity.
    rewrite pystr_eqb_refl.
    unfold save_video, VideoCapture. step.
    destruct (is_opened env (n_caps st) url); cbn; [|reflexivity].
    match goal with
    | |- context [record_frames env fuel ?h ?o ?t0 ?d ?s] =>
        destruct (record_frames_log env fuel h o t0 d s) as [_ [Hc _]];
        destruct (record_frames env fuel h o t0 d s) as [[[]|e|] s']
    end; cbn in *; exact Hc.
Qed.

Lemma process_device_caps :
  forall (env : Env) (fuel : nat) (d : device) (st : State),
    n_caps (snd (process_device env fuel d st))
    = if dispatched d then S (n_caps st) else n_caps st.
Proof.
  intros env fuel d st. rewrite process_device_call.
  destruct (dispatched d); [|reflexivity].
  rewrite record_rtsp_stream_caps by apply dispatch_format_supported.
  reflexivity.
Qed.

(** A batch that returns has constructed exactly one capture and taken
    exactly one calendar reading for each record it did not skip. *)
Theorem batch_opens_one_capture_per_record :
  forall (env : Env) (fuel : nat) (devices : list device) (st : State),
    fst (main env fuel (Devices devices) st) = Returned tt ->
    n_caps (snd (main env fuel (Devices devices) st))
    = n_caps st + count_dispatched devices
    /\ n_dates (snd (main env fuel (Devices devices) st))
       = n_dates st + count_dispatched devices.
Proof.
  intros env fuel devices st.
  assert (Hloop : forall ds s,
            fst (for_devices env fuel ds s) = Returned tt ->
            n_caps (snd (for_devices env fuel ds s))
            = n_caps s + count_dispatched ds
            /\ n_dates (snd (for_devices env fuel ds s))
               = n_dates s + count_dispatched ds).
  { induction ds as [|d rest IH]; intros s.
    - intros _. unfold count_dispatched. simpl. lia.
    - simpl. unfold bind.
      pose proof (process_device_caps env fuel d s) as Hc.
      pose proof (one_timestamp_per_device env fuel d s) as Hd.
      destruct (process_device env fuel d s) as [[[]|e|] s']; cbn in *;
        try discriminate.
      intros Hret. destruct (IH s' Hret) as [IHc IHd].
      rewrite IHc, IHd, Hc, Hd. unfold count_dispatched. simpl.
      destruct (dispatched d); simpl; lia. }
  destruct devices as [|d rest].
  - intros _. unfold count_dispatched. simpl. lia.
  - apply Hloop.
Qed.

(** A skipped record between two video cameras: two captures. *)
Lemma batch_opens_one_capture_per_record_witness :
  n_caps (snd (main sunny 20
                 (Devices [porch_mp4; camera "" "" "jpg"; yard_mp4]) initial))
  = n_caps initial
    + count_dispatched [porch_mp4; camera "" "" "jpg"; yard_mp4]
  /\ n_dates (snd (main sunny 20
                     (Devices [porch_mp4; camera "" "" "jpg"; yard_mp4])
                     initial))
     = n_dates initial
       + count_dispatched [porch_mp4; camera "" "" "jpg"; yard_mp4].
Proof.
  apply (@batch_opens_one_capture_per_record sunny 20
           [porch_mp4; camera "" "" "jpg"; yard_mp4] initial).
  vm_compute. reflexivity.
Defined.

(** ** Where the output goes *)

Lemma pystr_eqb_sym (a b : pystr) : pystr_eqb a b = pystr_eqb b a.
Proof.
  destruct (pystr_eqb a b) eqn:E1; destruct (pystr_eqb b a) eqn:E2;
    try reflexivity.
  - apply pystr_eqb_eq in E1. subst. rewrite pystr_eqb_refl in E2.
    discriminate.
  - apply pystr_eqb_eq in E2. subst. rewrite pystr_eqb_refl in E1.
    discriminate.
Qed.

Lemma parts_eqb_refl (ws : list pystr) : parts_eqb ws ws = true.
Proof.
  induction ws as [|w ws IH]; simpl; [reflexivity|].
  rewrite pystr_eqb_refl. exact IH.
Qed.

Lemma no_slash_split (s : pystr) :
  Forall (fun c => char_eqb c slash = false) s -> split_on slash s = [s].
Proof.
  intros H.
  pose proof (@split_on_app slash s [] [] [] H eq_refl) as E.
  rewrite app_nil_r in E. exact E.
Qed.

Lemma no_slash_forall (s : pystr) :
  existsb (char_eqb slash) s = false ->
  Forall (fun c => char_eqb c slash = false) s.
Proof.
  induction s as [|c s IH]; simpl; intros H; constructor.
  - apply orb_false_iff in H. destruct H as [H _].
    unfold char_eqb in *. rewrite N.eqb_sym. exact H.
  - apply IH. apply orb_false_iff in H. apply H.
Qed.

Lemma safe_filename_no_slash (U : unicode_db) (s : pystr) :
  Forall (fun c => char_eqb c slash = false) (safe_filename U s).
Proof.
  apply no_slash_forall. rewrite safe_filename_filter.
  apply filter_lacks, keeps_slash.
Qed.

Lemma out_dir_shape :
  forall (U : unicode_db) (d : device),
    out_dir U d
    = {| is_abs := false;
         parts := lit "snapshots_rtsp"
                  :: (if real_part (safe_filename U (get (directory d) (lit "")))
                      then [safe_filename U (get (directory d) (lit ""))]
                      else []) |}.
Proof.
  intros U d. unfold out_dir.
  pose proof (safe_filename_no_slash U (get (directory d) (lit ""))) as Hs.
  destruct (safe_filename U (get (directory d) (lit ""))) as [|c s] eqn:E.
  - reflexivity.
  - unfold truthy, joinpath, parse_path.
    rewrite (no_slash_split Hs).
    inversion Hs as [|? ? Hc _]; subst.
    cbn [is_abs]. rewrite Hc. cbn [filter].
    destruct (real_part (c :: s)); reflexivity.
Qed.

(** The output directory is a relative path that lies at most one
    component below [snapshots_rtsp]: the sanitized [directory], which
    holds no path separator and is left out when it is empty or ["."].  No
    [directory] value makes the output directory deeper or absolute. *)
Theorem out_dir_one_component :
  forall (U : unicode_db) (d : device),
    is_abs (out_dir U d) = false
    /\ (parts (out_dir U d) = [lit "snapshots_rtsp"]
        \/ parts (out_dir U d)
           = [lit "snapshots_rtsp";
              safe_filename U (get (directory d) (lit ""))]
           /\ real_part (safe_filename U (get (directory d) (lit ""))) = true
           /\ existsb (char_eqb slash)
                (safe_filename U (get (directory d) (lit ""))) = false).
Proof.
  intros U d. rewrite out_dir_shape. split; [reflexivity|].
  cbn [parts].
  destruct (real_part (safe_filename U (get (directory d) (lit ""))));
    [right | left; reflexivity].
  repeat split. rewrite safe_filename_filter.
  apply filter_lacks, keeps_slash.
Qed.

Lemma segment_one_component (d : device) (dt : datetime) :
  existsb (char_eqb slash) (get (filename d) (lit "video.mp4")) = false ->
  filter real_part (split_on slash (segment d dt)) = [segment d dt].
Proof.
  intros Hfn.
  assert (Hs : Forall (fun c => char_eqb c slash = false) (segment d dt)).
  { unfold segment. apply Forall_app. split; [apply strftime_no_slash|].
    constructor; [reflexivity|].
    apply Forall_app. split; [apply no_slash_forall, Hfn|].
    constructor; [reflexivity|].
    destruct (dispatch_format_supported d) as [-> | ->];
      repeat (constructor; [reflexivity|]); constructor. }
  rewrite (no_slash_split Hs). cbn [filter].
  rewrite real_part_long; [reflexivity|].
  unfold segment. rewrite length_app, strftime_length. lia.
Qed.

Lemma segment_not_dotdot (d : device) (dt : datetime) :
  pystr_eqb (segment d dt) dotdot = false.
Proof.
  apply not_dotdot_long. unfold segment.
  rewrite length_app, strftime_length. lia.
Qed.

Lemma norm_parts_plain (acc ws : list pystr) :
  Forall (fun w => pystr_eqb w dotdot = false) ws ->
  norm_parts acc ws = rev acc ++ ws.
Proof.
  intros H. revert acc. induction H as [|w ws Hw _ IH]; intros acc; simpl.
  - rewrite app_nil_r. reflexivity.
  - rewrite Hw, IH. simpl. rewrite <- app_assoc. reflexivity.
Qed.

Lemma plain_lacks_dotdot (ws : list pystr) :
  Forall (fun w => pystr_eqb w dotdot = false) ws ->
  str_in dotdot ws = false.
Proof.
  intros H. unfold str_in. induction H as [|w ws Hw _ IH]; cbn [existsb];
    [reflexivity|].
  rewrite pystr_eqb_sym, Hw, IH. reflexivity.
Qed.

(** A file name without a path separator, under a [directory] whose
    sanitized form is not [".."]: the path handed to the capture is a file
    of the output directory itself and lies inside [snapshots_rtsp]. *)
Theorem plain_names_stay_inside :
  forall (U : unicode_db) (d : device) (dt : datetime),
    pystr_eqb (safe_filename U (get (directory d) (lit ""))) dotdot = false ->
    existsb (char_eqb slash) (get (filename d) (lit "video.mp4")) = false ->
    directly_in (out_dir U d) (target U d dt) = true
    /\ inside SAVE_DIR (target U d dt) = true.
Proof.
  intros U d dt Hdir Hfn.
  rewrite target_parts, (segment_one_component d dt Hfn). split.
  - unfold directly_in. cbn [parts is_abs].
    rewrite rev_app_distr. cbn [rev app].
    rewrite rev_involutive, parts_eqb_refl, eqb_reflx. reflexivity.
  - rewrite out_dir_shape. cbn [parts is_abs].
    set (sane := safe_filename U (get (directory d) (lit ""))) in *.
    assert (Hplain : Forall (fun w => pystr_eqb w dotdot = false)
                       ((if real_part sane then [sane] else [])
                        ++ [segment d dt])).
    { apply Forall_app. split.
      - destruct (real_part sane); constructor; [exact Hdir | constructor].
      - constructor; [apply segment_not_dotdot | constructor]. }
    unfold inside, normpath. cbn [parts is_abs].
    change ((lit "snapshots_rtsp"
             :: (if real_part sane then [sane] else [])) ++ [segment d dt])
      with (lit "snapshots_rtsp"
            :: ((if real_part sane then [sane] else []) ++ [segment d dt])).
    assert (Hall : Forall (fun w => pystr_eqb w dotdot = false)
                     (lit "snapshots_rtsp"
                      :: ((if real_part sane then [sane] else [])
                          ++ [segment d dt])))
      by (constructor; [reflexivity | exact Hplain]).
    rewrite (norm_parts_plain [] Hall).
    change (norm_parts [] (parts SAVE_DIR)) with [lit "snapshots_rtsp"].
    cbn [rev app strip_prefix]. rewrite pystr_eqb_refl.
    pose proof (plain_lacks_dotdot Hplain) as Hlacks.
    destruct ((if real_part sane then [sane] else []) ++ [segment d dt])
      as [|w rest] eqn:E.
    + destruct (real_part sane); discriminate.
    + rewrite Hlacks. reflexivity.
Qed.

(** A snapshot named ["front"] under the directory ["yard/cams"]. *)
Lemma plain_names_stay_inside_witness :
  let d := filed (lit "porch") (lit "rtsp://10.0.0.1/live") (lit "yard/cams")
             (lit "front") (lit "jpg") in
  directly_in (out_dir ascii_db d) (target ascii_db d noon) = true
  /\ inside SAVE_DIR (target ascii_db d noon) = true.
Proof.
  apply (@plain_names_stay_inside ascii_db
           (filed (lit "porch") (lit "rtsp://10.0.0.1/live") (lit "yard/cams")
              (lit "front") (lit "jpg")) noon).
  - reflexivity.
  - reflexivity.
Defined.

(** A [directory] whose sanitized form is [".."] gets through the
    sanitizer: with a file name that has no path separator, the path handed
    to the capture normalises to the bare file name, beside
    [snapshots_rtsp] and not inside it. *)
Theorem dotdot_directory_escapes :
  forall (U : unicode_db) (d : device) (dt : datetime),
    safe_filename U (get (directory d) (lit "")) = dotdot ->
    existsb (char_eqb slash) (get (filename d) (lit "video.mp4")) = false ->
    normpath (target U d dt) = [segment d dt]
    /\ inside SAVE_DIR (target U d dt) = false.
Proof.
  intros U d dt Hdir Hfn.
  rewrite target_parts, (segment_one_component d dt Hfn).
  rewrite out_dir_shape, Hdir.
  assert (Hn : normpath
                 {| is_abs := false;
                    parts := [lit "snapshots_rtsp"; dotdot]
                             ++ [segment d dt] |} = [segment d dt]).
  { unfold normpath. cbn [parts app norm_parts].
    change (pystr_eqb (lit "snapshots_rtsp") dotdot) with false.
    change (pystr_eqb dotdot dotdot) with true. cbn iota.
    change (pystr_eqb (lit "snapshots_rtsp") dotdot) with false. cbn iota.
    rewrite segment_not_dotdot. reflexivity. }
  change (if real_part dotdot then [dotdot] else []) with [dotdot].
  cbn [is_abs parts].
  change (lit "snapshots_rtsp" :: [dotdot]) with [lit "snapshots_rtsp"; dotdot].
  split; [exact Hn|].
  unfold inside. rewrite Hn.
  change (normpath SAVE_DIR) with [lit "snapshots_rtsp"].
  cbn [strip_prefix is_abs].
  destruct (pystr_eqb (lit "snapshots_rtsp") (segment d dt)); reflexivity.
Qed.

(** The directory ["../"] sanitizes to [".."]. *)
Lemma dotdot_directory_escapes_witness :
  let d := filed (lit "porch") (lit "rtsp://10.0.0.1/live") (lit "../")
             (lit "front") (lit "jpg") in
  normpath (target ascii_db d noon) = [segment d noon]
  /\ inside SAVE_DIR (target ascii_db d noon) = false.
Proof.
  apply (@dotdot_directory_escapes ascii_db
           (filed (lit "porch") (lit "rtsp://10.0.0.1/live") (lit "../")
              (lit "front") (lit "jpg")) noon).
  - reflexivity.
  - reflexivity.
Defined.

(** ** Timestamps tell seconds apart *)

Lemma digit_mod (a b : nat) : digit a = digit b -> a mod 10 = b mod 10.
Proof. unfold digit. intros H. lia. Qed.

Lemma two_digits_inj (a b : nat) :
  a <= 99 -> b <= 99 -> two_digits a = two_digits b -> a = b.
Proof.
  unfold two_digits. intros Ha Hb H.
  assert (H1 : digit (a / 10) = digit (b / 10)) by congruence.
  assert (H2 : digit a = digit b) by congruence.
  apply digit_mod in H1, H2.
  assert (Hqa : a / 10 < 10) by (apply Nat.Div0.div_lt_upper_bound; lia).
  assert (Hqb : b / 10 < 10) by (apply Nat.Div0.div_lt_upper_bound; lia).
  rewrite (Nat.mod_small _ _ Hqa), (Nat.mod_small _ _ Hqb) in H1.
  pose proof (Nat.div_mod_eq a 10). pose proof (Nat.div_mod_eq b 10). lia.
Qed.

(** The decimal digits of a number below 10000. *)
Lemma four_digits_value (n : nat) :
  (N.of_nat n <= 9999)%N ->
  n = 1000 * ((n / 1000) mod 10) + 100 * ((n / 100) mod 10)
      + 10 * ((n / 10) mod 10) + n mod 10.
Proof.
  intros Hn.
  pose proof (Nat.div_mod_eq n 10) as E1.
  pose proof (Nat.div_mod_eq (n / 10) 10) as E2.
  pose proof (Nat.div_mod_eq (n / 100) 10) as E3.
  replace (n / 10 / 10) with (n / 100) in E2
    by (rewrite Nat.Div0.div_div; reflexivity).
  replace (n / 100 / 10) with (n / 1000) in E3
    by (rewrite Nat.Div0.div_div; reflexivity).
  assert (Hq : n / 1000 < 10) by (apply Nat.Div0.div_lt_upper_bound; lia).
  rewrite (Nat.mod_small _ _ Hq). lia.
Qed.

Lemma four_digits_inj (a b : nat) :
  (N.of_nat a <= 9999)%N -> (N.of_nat b <= 9999)%N ->
  four_digits a = four_digits b -> a = b.
Proof.
  unfold four_digits. intros Ha Hb H.
  assert (H1 : digit (a / 1000) = digit (b / 1000)) by congruence.
  assert (H2 : digit (a / 100) = digit (b / 100)) by congruence.
  assert (H3 : digit (a / 10) = digit (b / 10)) by congruence.
  assert (H4 : digit a = digit b) by congruence.
  apply digit_mod in H1, H2, H3, H4.
  rewrite (four_digits_value a Ha), (four_digits_value b Hb).
  rewrite H1, H2, H3, H4. reflexivity.
Qed.

Lemma strftime_inj (dt1 dt2 : datetime) :
  valid_datetime dt1 = true -> valid_datetime dt2 = true ->
  strftime dt1 = strftime dt2 -> dt1 = dt2.
Proof.
  unfold valid_datetime. rewrite !andb_true_iff, !Nat.leb_le, !N.leb_le.
  intros V1 V2 H.
  destruct dt1 as [y1 m1 d1 h1 i1 s1], dt2 as [y2 m2 d2 h2 i2 s2].
  unfold strftime in H. cbn [year month day hour minute second] in *.
  assert (Hy : four_digits y1 = four_digits y2)
    by (unfold four_digits, two_digits in *; cbn [app] in H; congruence).
  assert (Hm : two_digits m1 = two_digits m2)
    by (unfold four_digits, two_digits in *; cbn [app] in H; congruence).
  assert (Hd : two_digits d1 = two_digits d2)
    by (unfold four_digits, two_digits in *; cbn [app] in H; congruence).
  assert (Hh : two_digits h1 = two_digits h2)
    by (unfold four_digits, two_digits in *; cbn [app] in H; congruence).
  assert (Hi : two_digits i1 = two_digits i2)
    by (unfold four_digits, two_digits in *; cbn [app] in H; congruence).
  assert (Hs : two_digits s1 = two_digits s2)
    by (unfold four_digits, two_digits in *; cbn [app] in H; congruence).
  apply four_digits_inj in Hy; [|lia..].
  apply two_digits_inj in Hm, Hd, Hh, Hi, Hs; try lia.
  subst. reflexivity.
Qed.

Lemma split_on_cons (sep : char) (s : pystr) :
  exists w ws, split_on sep s = w :: ws.
Proof.
  induction s as [|c s [w [ws IH]]]; simpl; [eauto|].
  destruct (char_eqb c sep); [eauto|]. rewrite IH. eauto.
Qed.

(** For one record, dispatch times that lead to the same output path are
    the same second: the paths of two different seconds never collide,
    whatever the record's directory, file name and format. *)
Theorem same_path_same_second :
  forall (U : unicode_db) (d : device) (dt1 dt2 : datetime),
    valid_datetime dt1 = true -> valid_datetime dt2 = true ->
    target U d dt1 = target U d dt2 ->
    dt1 = dt2.
Proof.
  intros U d dt1 dt2 V1 V2 H.
  apply strftime_inj; [exact V1 | exact V2|].
  rewrite !target_parts in H.
  assert (Hp : filter real_part (split_on slash (segment d dt1))
               = filter real_part (split_on slash (segment d dt2)))
    by (apply (app_inv_head (parts (out_dir U d))); congruence).
  unfold segment in Hp.
  destruct (split_on_cons slash
              (underscore :: get (filename d) (lit "video.mp4")
               ++ dot :: dispatch_format d)) as [w [ws E]].
  rewrite (@split_on_app slash (strftime dt1) _ w ws
             (strftime_no_slash dt1) E) in Hp.
  rewrite (@split_on_app slash (strftime dt2) _ w ws
             (strftime_no_slash dt2) E) in Hp.
  cbn [filter] in Hp.
  rewrite !real_part_long in Hp
    by (rewrite length_app, strftime_length; lia).
  assert (Hw : strftime dt1 ++ w = strftime dt2 ++ w) by congruence.
  apply app_inv_tail in Hw. exact Hw.
Qed.

(** A path is the path of its own second. *)
Lemma same_path_same_second_witness : noon = noon.
Proof.
  apply (@same_path_same_second ascii_db porch_jpg noon noon);
    reflexivity.
Defined.

(** ** Names the sanitizer leaves alone *)

Lemma ascii_safe_kept (U : unicode_db) (c : char) :
  ascii_safe c = true -> keeps U c = true.
Proof.
  unfold ascii_safe, keeps, isalpha, isdigit, char_eqb, underscore, dot.
  intros H. destruct (N.ltb_spec c 128) as [Hlt|Hge].
  - rewrite <- H.
    destruct (65 <=? c)%N, (c <=? 90)%N, (97 <=? c)%N, (c <=? 122)%N,
      (48 <=? c)%N, (c <=? 57)%N, (c =? 95)%N, (c =? 46)%N; reflexivity.
  - exfalso.
    rewrite !orb_true_iff, !andb_true_iff, !N.leb_le, !N.eqb_eq in H. lia.
Qed.

(** A name made of ASCII letters, digits, underscores and dots comes out
    of [safe_filename] unchanged, whatever the Unicode tables say. *)
Theorem safe_filename_keeps_plain_names :
  forall (U : unicode_db) (s : pystr),
    forallb ascii_safe s = true -> safe_filename U s = s.
Proof.
  intros U s. induction s as [|c s IH]; simpl; [reflexivity|].
  intros H. apply andb_true_iff in H. destruct H as [Hc Hs].
  rewrite (ascii_safe_kept U c Hc), (IH Hs). reflexivity.
Qed.

Lemma safe_filename_keeps_plain_names_witness :
  safe_filename ascii_db (lit "Cam_01.front") = lit "Cam_01.front".
Proof.
  apply (@safe_filename_keeps_plain_names ascii_db (lit "Cam_01.front")).
  reflexivity.
Defined.

(** ** A record with nothing but a name and a URL *)

(** The defaults of the loop body: a record that gives only a non-empty
    name and URL is recorded as video for ten seconds at 25 frames a
    second, straight into [snapshots_rtsp], after one calendar reading and
    with no directory made. *)
Theorem bare_record_defaults :
  forall (env : Env) (fuel : nat) (name url : pystr) (st : State),
    truthy name = true -> truthy url = true ->
    process_device env fuel (bare name url) st
    = save_video env fuel name url 10
        (joinpath SAVE_DIR
           (strftime (datetime_now env (n_dates st)) ++ lit "_video.mp4.mp4"))
        25
        {| n_caps := n_caps st; n_reads := n_reads st; n_clock := n_clock st;
           n_dates := S (n_dates st); trace := trace st ++ [ENow] |}.
Proof.
  intros env fuel name url st Hn Hu.
  rewrite process_device_call.
  unfold dispatched, bare, missing. cbn [camera_name camera_url].
  rewrite Hn, Hu. reflexivity.
Qed.

Lemma bare_record_defaults_witness :
  process_device sunny 20 (bare (lit "porch") (lit "rtsp://10.0.0.1/live"))
    initial
  = save_video sunny 20 (lit "porch") (lit "rtsp://10.0.0.1/live") 10
      (joinpath SAVE_DIR
         (strftime (datetime_now sunny (n_dates initial))
          ++ lit "_video.mp4.mp4"))
      25
      {| n_caps := 0; n_reads := 0; n_clock := 0; n_dates := 1;
         trace := trace initial ++ [ENow] |}.
Proof.
  apply (@bare_record_defaults sunny 20 (lit "porch")
           (lit "rtsp://10.0.0.1/live") initial); reflexivity.
Defined.

(** ** The log only grows *)

Lemma extends_refl (st : State) : extends st st.
Proof. exists []. rewrite app_nil_r. reflexivity. Qed.

Lemma extends_trans (a b c : State) : extends a b -> extends b c -> extends a c.
Proof.
  intros [l1 H1] [l2 H2]. exists (l1 ++ l2).
  rewrite H2, H1, app_assoc. reflexivity.
Qed.

Lemma grows_bind (A B : Type) (m : M A) (k : A -> M B) :
  respects extends m -> (forall a, respects extends (k a)) ->
  respects extends (bind m k).
Proof.
  intros Hm Hk st. unfold bind. specialize (Hm st).
  destruct (m st) as [[a|e|] st']; simpl in *; [|assumption..].
  exact (extends_trans Hm (Hk a st')).
Qed.

Lemma grows_emit (e : event) : respects extends (emit e).
Proof. intros st. exists [e]. reflexivity. Qed.

Lemma grows_ret (A : Type) (a : A) : respects extends (ret a).
Proof. intros st. apply extends_refl. Qed.

Lemma grows_raise (A : Type) (e : exn) : respects extends (@raise A e).
Proof. intros st. apply extends_refl. Qed.

Lemma grows_out_of_fuel (A : Type) : respects extends (@out_of_fuel A).
Proof. intros st. apply extends_refl. Qed.

Lemma grows_now_time (env : Env) : respects extends (now_time env).
Proof. intros st. exists []. simpl. rewrite app_nil_r. reflexivity. Qed.

Lemma grows_now_date (env : Env) : respects extends (now_date env).
Proof. intros st. exists [ENow]. reflexivity. Qed.

Lemma grows_cap_read (env : Env) (h : nat) :
  respects extends (cap_read env h).
Proof. intros st. exists [ERead h]. reflexivity. Qed.

Lemma grows_VideoCapture (url : pystr) : respects extends (VideoCapture url).
Proof. intros st. exists [EOpen (n_caps st) url]. reflexivity. Qed.

Create HintDb grows.
#[local] Hint Resolve grows_emit grows_ret grows_raise grows_out_of_fuel
  grows_now_time grows_now_date grows_cap_read grows_VideoCapture : grows.

Ltac grows_step :=
  first [ apply grows_bind; [|intros ?]
        | solve [unfold print; auto with grows] ].

Lemma grows_wait_keyframe (env : Env) (fuel h : nat) (t0 : Q) :
  respects extends (wait_keyframe env fuel h t0).
Proof.
  induction fuel as [|fuel IH]; simpl; [grows_step|].
  grows_step; [grows_step|].
  destruct (Qltb _ _); [|grows_step].
  grows_step; [grows_step|].
  destruct a0 as [[|] [frm|]]; repeat grows_step; exact IH.
Qed.

Lemma grows_record_frames (env : Env) (fuel h : nat) (out : Path)
    (t0 : Q) (D : Z) :
  respects extends (record_frames env fuel h out t0 D).
Proof.
  induction fuel as [|fuel IH]; simpl; [grows_step|].
  grows_step; [grows_step|].
  destruct (Qltb _ _); [|grows_step].
  grows_step; [grows_step|].
  destruct (negb (fst a0)); repeat grows_step; exact IH.
Qed.

Lemma grows_record_rtsp_stream (env : Env) (fuel : nat)
    (name url : pystr) (p : Path) (ff : pystr) (D : Z) :
  respects extends (record_rtsp_stream env fuel name url p ff D).
Proof.
  unfold record_rtsp_stream.
  destruct (pystr_eqb ff (lit "jpg")); [|destruct (pystr_eqb ff (lit "mp4"))].
  - unfold save_snapshot. grows_step; [grows_step|].
    grows_step; [destruct (negb _); repeat grows_step|].
    grows_step; [grows_step|]. grows_step; [grows_step|].
    grows_step; [apply grows_wait_keyframe|].
    grows_step; [grows_step|].
    destruct (imwrite env p a3); [destruct a3| |]; repeat grows_step.
  - unfold save_video. grows_step; [grows_step|].
    grows_step; [grows_step|].
    destruct (negb _); [grows_step|].
    grows_step; [grows_step|]. grows_step; [grows_step|].
    grows_step; [grows_step|].
    grows_step; [apply grows_record_frames|].
    repeat grows_step.
  - grows_step.
Qed.

Lemma grows_main (env : Env) (fuel : nat) (config : config_file) :
  respects extends (main env fuel config).
Proof.
  assert (Hdev : forall d, respects extends (process_device env fuel d)).
  { intros d st. rewrite process_device_call.
    destruct (dispatched d); [|apply grows_emit].
    match goal with
    | |- extends _ (snd (record_rtsp_stream ?e ?f ?n ?u ?p ?ff ?D ?s)) =>
        pose proof (grows_record_rtsp_stream e f n u p ff D s) as H
    end.
    refine (extends_trans _ H). exists (preamble (unicode env) d).
    reflexivity. }
  assert (Hloop : forall ds, respects extends (for_devices env fuel ds)).
  { induction ds as [|d rest IH]; simpl; [grows_step|].
    grows_step; [apply Hdev | exact IH]. }
  destruct config as [| |devices]; simpl; try grows_step.
  destruct devices; [grows_step | apply Hloop].
Qed.

(** The script makes sure [snapshots_rtsp] exists before anything else,
    whatever the configuration and whatever happens afterwards; when the
    configuration file is missing or is not JSON, that is all it does
    before it ends in [FileNotFoundError] or [ValueError]. *)
Theorem script_makes_base_dir_first :
  forall (env : Env) (fuel : nat) (config : config_file) (st : State),
    (exists rest,
       trace (snd (script env fuel config st))
       = trace st ++ EMakedirs SAVE_DIR :: rest)
    /\ script env fuel NoSuchFile st
       = (Raised FileNotFoundError,
          {| n_caps := n_caps st; n_reads := n_reads st;
             n_clock := n_clock st; n_dates := n_dates st;
             trace := trace st ++ [EMakedirs SAVE_DIR] |})
    /\ script env fuel Malformed st
       = (Raised InvalidJson,
          {| n_caps := n_caps st; n_reads := n_reads st;
             n_clock := n_clock st; n_dates := n_dates st;
             trace := trace st ++ [EMakedirs SAVE_DIR] |}).
Proof.
  intros env fuel config st. split; [|split; reflexivity].
  unfold script, bind, emit. cbn.
  match goal with
  | |- context [main env fuel config ?s] =>
      destruct (grows_main env fuel config s) as [l Hl]
  end.
  exists l. rewrite Hl. cbn. rewrite <- app_assoc. reflexivity.
Qed.

(** ** Instances of the capture lemmas *)

(** A stream that delivers at the first read: the frame is written and
    its width and height are reported. *)
Lemma save_snapshot_frame_witness :
  save_snapshot sunny 9 (lit "porch") (lit "rtsp://10.0.0.1/live") shot_path
    initial
  = (Returned tt,
     {| n_caps := 1; n_reads := 1; n_clock := 2; n_dates := 0;
        trace := [EOpen 0 (lit "rtsp://10.0.0.1/live"); ESetBuffer 0;
                  ERead 0; EImwrite shot_path (Some vga);
                  EPrint (MsgSavedSnapshot (lit "porch") shot_path 640 480);
                  ERelease 0] |}).
Proof.
  apply (@save_snapshot_frame sunny (lit "porch") (lit "rtsp://10.0.0.1/live")
           shot_path vga 0 9 initial).
  - reflexivity.
  - intros i Hi. lia.
  - vm_compute. reflexivity.
  - reflexivity.
  - lia.
Defined.

(** A stream that never delivers, with [imwrite] answering [False] to the
    empty image: four polls, the write, the error message, the release. *)
Lemma save_snapshot_no_frame_witness :
  save_snapshot (mute NotWritten) 9 (lit "porch") (lit "rtsp://10.0.0.1/live")
    shot_path initial
  = (Returned tt,
     {| n_caps := 1; n_reads := 4; n_clock := 6; n_dates := 0;
        trace := ([EOpen 0 (lit "rtsp://10.0.0.1/live"); ESetBuffer 0]
                  ++ polled 0 4 ++ [EImwrite shot_path None])
                 ++ [EPrint (MsgNotWritten (lit "porch") shot_path);
                     ERelease 0] |}).
Proof.
  apply (@save_snapshot_no_frame (mute NotWritten) (lit "porch")
           (lit "rtsp://10.0.0.1/live") shot_path 4 9 initial).
  - reflexivity.
  - intros i Hi. destruct i as [|[|[|[|i]]]];
      [split; vm_compute; reflexivity.. | lia].
  - vm_compute. discriminate.
  - lia.
Defined.

(** Two snapshot cameras, the first of them unreachable. *)
Lemma snapshot_failure_ends_batch_witness :
  for_devices first_down 9 [porch_jpg; yard_jpg] initial
  = (Raised SystemExit,
     {| n_caps := 1; n_reads := 0; n_clock := 0; n_dates := 1;
        trace := [ENow; EOpen 0 (lit "rtsp://10.0.0.1/live");
                  EPrint (MsgSnapshotNotOpened (lit "rtsp://10.0.0.1/live"))] |}).
Proof.
  apply (@snapshot_failure_ends_batch first_down 9 porch_jpg [yard_jpg]
           initial); reflexivity.
Defined.

(** Two video cameras, the first of them unreachable. *)
Lemma video_failure_continues_witness :
  for_devices first_down 9 [porch_mp4; yard_mp4] initial
  = for_devices first_down 9 [yard_mp4]
      {| n_caps := 1; n_reads := 0; n_clock := 0; n_dates := 1;
         trace := [ENow; EOpen 0 (lit "rtsp://10.0.0.1/live"); ESetBuffer 0;
                   EPrint (MsgVideoNotOpened (lit "porch")
                             (lit "rtsp://10.0.0.1/live"))] |}.
Proof.
  apply (@video_failure_continues first_down 9 porch_mp4 [yard_mp4] initial);
    reflexivity.
Defined.

(** ** A format that is not supported *)

(** A record that is not skipped and whose [fileformat] is neither ["jpg"]
    nor ["mp4"] (["avi"], ["MP4"], the empty string) is captured as a
    snapshot into a file with the extension [.jpg]; the first thing logged
    for it is the warning that names the format it asked for. *)
Theorem unsupported_format_becomes_snapshot :
  forall (env : Env) (fuel : nat) (d : device) (st : State),
    dispatched d = true ->
    str_in (get (fileformat d) (lit "mp4")) SUPPORTED_FORMATS = false ->
    process_device env fuel d st
    = save_snapshot env fuel (get (camera_name d) []) (get (camera_url d) [])
        (joinpath (out_dir (unicode env) d)
           (strftime (datetime_now env (n_dates st)) ++ underscore
            :: get (filename d) (lit "video.mp4") ++ lit ".jpg"))
        {| n_caps := n_caps st; n_reads := n_reads st; n_clock := n_clock st;
           n_dates := S (n_dates st);
           trace := trace st ++ preamble (unicode env) d |}
    /\ hd_error (preamble (unicode env) d)
       = Some (EPrint (MsgUnsupported (get (fileformat d) (lit "mp4")))).
Proof.
  intros env fuel d st Hd Hff. split.
  - rewrite process_device_call, Hd.
    unfold target, segment, dispatch_format. rewrite Hff.
    unfold record_rtsp_stream. rewrite pystr_eqb_refl. reflexivity.
  - unfold preamble. rewrite Hff. reflexivity.
Qed.

(** A camera that asks for ["avi"]. *)
Lemma unsupported_format_becomes_snapshot_witness :
  let d := camera "porch" "rtsp://10.0.0.1/live" "avi" in
  process_device sunny 9 d initial
  = save_snapshot sunny 9 (get (camera_name d) []) (get (camera_url d) [])
      (joinpath (out_dir (unicode sunny) d)
         (strftime (datetime_now sunny (n_dates initial)) ++ underscore
          :: get (filename d) (lit "video.mp4") ++ lit ".jpg"))
      {| n_caps := 0; n_reads := 0; n_clock := 0; n_dates := 1;
         trace := trace initial ++ preamble (unicode sunny) d |}
  /\ hd_error (preamble (unicode sunny) d)
     = Some (EPrint (MsgUnsupported (get (fileformat d) (lit "mp4")))).
Proof.
  apply (@unsupported_format_becomes_snapshot sunny 9
           (camera "porch" "rtsp://10.0.0.1/live" "avi") initial);
    reflexivity.
Defined.

(** ** The exceptions of the dispatcher *)

(** Called with arguments of the types its signature declares,
    [record_rtsp_stream] can be left through [SystemExit], [cv2.error] or
    [AttributeError] for the format ["jpg"] and through nothing else; for
    ["mp4"] it raises nothing at all; for any other format it raises the
    [ValueError] for that format and does nothing else. *)
Theorem record_rtsp_stream_exceptions :
  forall (env : Env) (fuel : nat) (name url : pystr) (p : Path) (ff : pystr)
         (D : Z) (st : State),
    if pystr_eqb ff (lit "jpg")
    then raises_only capture_error
           (fst (record_rtsp_stream env fuel name url p ff D st)) = true
    else if pystr_eqb ff (lit "mp4")
    then is_raised (fst (record_rtsp_stream env fuel name url p ff D st))
         = false
    else record_rtsp_stream env fuel name url p ff D st
         = (Raised (UnsupportedFormat ff), st).
Proof.
  intros env fuel name url p ff D st. unfold record_rtsp_stream.
  destruct (pystr_eqb ff (lit "jpg")); [apply save_snapshot_errors|].
  destruct (pystr_eqb ff (lit "mp4")); [apply save_video_never_raises|].
  reflexivity.
Qed.

(** ** The file name in the path *)

Lemma strip_prefix_some (pre l r : list pystr) :
  strip_prefix pre l = Some r -> l = pre ++ r.
Proof.
  revert l. induction pre as [|x pre IH]; intros l H; simpl in *.
  - congruence.
  - destruct l as [|y l]; [discriminate|].
    destruct (pystr_eqb x y) eqn:E; [|discriminate].
    apply pystr_eqb_eq in E. subst. rewrite (IH l H). reflexivity.
Qed.

Lemma strip_prefix_longer (l : list pystr) (x : pystr) :
  strip_prefix (l ++ [x]) l = None.
Proof.
  induction l as [|y l IH]; simpl; [reflexivity|].
  rewrite pystr_eqb_refl. exact IH.
Qed.

Lemma strip_prefix_none_push (pre l : list pystr) (w : pystr) :
  strip_prefix pre l = None -> str_in w pre = false ->
  strip_prefix pre (l ++ [w]) = None.
Proof.
  revert l. induction pre as [|x pre IH]; intros l H Hw; simpl in *;
    [discriminate|].
  unfold str_in in Hw. cbn [existsb] in Hw.
  apply orb_false_iff in Hw. destruct Hw as [Hx Hpre].
  destruct l as [|y l]; simpl.
  - rewrite pystr_eqb_sym, Hx. reflexivity.
  - destruct (pystr_eqb x y); [|reflexivity]. apply IH; assumption.
Qed.

Lemma strip_prefix_none_pop (pre l : list pystr) (x : pystr) :
  strip_prefix pre (l ++ [x]) = None -> strip_prefix pre l = None.
Proof.
  intros H. destruct (strip_prefix pre l) as [r|] eqn:E; [|reflexivity].
  apply strip_prefix_some in E. subst l.
  rewrite <- app_assoc, strip_prefix_self in H. discriminate.
Qed.

Lemma str_in_app (x : pystr) (a b : list pystr) :
  str_in x (a ++ b) = str_in x a || str_in x b.
Proof. unfold str_in. apply existsb_app. Qed.

Section Above.

(** [base] is a normalised directory without [".."] in it. *)
Variable base : list pystr.
Hypothesis base_plain : Forall (fun w => pystr_eqb w dotdot = false) base.

(** A normalised path that is not below [base]. *)
Let above (l : list pystr) : Prop :=
  str_in dotdot l = true \/ strip_prefix base l = None.

Let strange (ws : list pystr) : Prop :=
  Forall (fun w => pystr_eqb w dotdot = true \/ str_in w base = false) ws.

(** Once above [base], components that do not name a component of [base]
    never lead back below it. *)
Lemma above_stays (ws s : list pystr) :
  strange ws -> above (rev s) -> above (norm_parts s ws).
Proof.
  intros Hws. revert s. induction Hws as [|w ws Hw _ IH]; intros s Hs;
    simpl; [exact Hs|].
  destruct (pystr_eqb w dotdot) eqn:Ew.
  - destruct s as [|top below].
    + apply IH. left. reflexivity.
    + destruct (pystr_eqb top dotdot) eqn:Et.
      * apply IH. left. simpl. rewrite !str_in_app. unfold str_in at 3.
        simpl. rewrite !orb_true_r. reflexivity.
      * apply IH. simpl in Hs. destruct Hs as [Hs|Hs].
        -- left. rewrite str_in_app in Hs. unfold str_in at 2 in Hs.
           cbn [existsb] in Hs. rewrite pystr_eqb_sym, Et in Hs.
           rewrite !orb_false_r in Hs. exact Hs.
        -- right. exact (strip_prefix_none_pop _ _ _ Hs).
  - apply IH. simpl. destruct Hs as [Hs|Hs].
    + left. rewrite str_in_app, Hs. reflexivity.
    + right. destruct Hw as [Hw|Hw]; [congruence|].
      apply strip_prefix_none_push; assumption.
Qed.

(** Walking from [base] with the names [t] already below it: components
    that climb above [base] and do not name its components end above it. *)
Lemma climb_ends_above (ws t : list pystr) :
  strange ws ->
  Forall (fun w => pystr_eqb w dotdot = false) t ->
  climbs (length t) ws = true ->
  above (norm_parts (t ++ rev base) ws).
Proof.
  intros Hws. revert t. induction Hws as [|w ws Hw Hws IH]; intros t Ht Hc;
    simpl in *; [discriminate|].
  destruct (pystr_eqb w dotdot) eqn:Ew.
  - destruct t as [|x t]; simpl in *.
    + destruct (rev base) as [|top below] eqn:Eb.
      * apply above_stays; [exact Hws|]. left. reflexivity.
      * assert (Hbase : base = rev below ++ [top])
          by (rewrite <- (rev_involutive base), Eb; reflexivity).
        assert (Htop : pystr_eqb top dotdot = false).
        { rewrite Forall_forall in base_plain. apply base_plain.
          rewrite Hbase. apply in_or_app. right. left. reflexivity. }
        rewrite Htop. apply above_stays; [exact Hws|].
        right. rewrite Hbase. apply strip_prefix_longer.
    + inversion Ht as [|? ? Hx Ht']; subst. rewrite Hx.
      apply IH; assumption.
  - apply (IH (w :: t)); [constructor; assumption | exact Hc].
Qed.

(** A path that ends above [base] is not inside it. *)
Lemma above_not_inside (l : list pystr) :
  above l ->
  match strip_prefix base l with
  | Some (w :: rest) => negb (str_in dotdot (w :: rest))
  | _ => false
  end = false.
Proof.
  intros [H|H]; [|rewrite H; reflexivity].
  destruct (strip_prefix base l) as [r|] eqn:E; [|reflexivity].
  apply strip_prefix_some in E. subst l.
  rewrite str_in_app, (plain_lacks_dotdot base_plain) in H. simpl in H.
  destruct r as [|w rest]; [reflexivity|]. rewrite H. reflexivity.
Qed.

End Above.

(** Components that never climb above their start normalise to names only,
    on top of whatever the start was. *)
Lemma stays_below (ws t acc : list pystr) :
  climbs (length t) ws = false ->
  Forall (fun w => pystr_eqb w dotdot = false) t ->
  norm_parts (t ++ acc) ws = rev acc ++ norm_parts t ws
  /\ Forall (fun w => pystr_eqb w dotdot = false) (norm_parts t ws).
Proof.
  revert t. induction ws as [|w ws IH]; intros t Hc Ht; simpl in *.
  - rewrite rev_app_distr. split; [reflexivity|].
    apply Forall_rev. exact Ht.
  - destruct (pystr_eqb w dotdot) eqn:Ew.
    + destruct t as [|x t]; [discriminate|]. simpl in *.
      inversion Ht as [|? ? Hx Ht']; subst. rewrite Hx.
      apply IH; assumption.
    + apply (IH (w :: t)); [exact Hc | constructor; assumption].
Qed.

(** Text without a separator, appended to a string, goes to the last
    piece of the split. *)
Lemma split_on_app_tail (s t : pystr) :
  Forall (fun c => char_eqb c slash = false) t ->
  split_on slash (s ++ t)
  = removelast (split_on slash s) ++ [last (split_on slash s) [] ++ t].
Proof.
  intros Ht. induction s as [|c s IH]; simpl.
  - apply no_slash_split. exact Ht.
  - destruct (split_on_cons slash s) as [w [ws E]].
    rewrite IH, E. clear IH.
    destruct (char_eqb c slash).
    + destruct ws; reflexivity.
    + destruct ws as [|y ws]; reflexivity.
Qed.

(** The last component a file name contributes carries the format
    extension, so it is a name and never [".."]. *)
Lemma file_parts_last (d : device) (dt : datetime) :
  exists init last,
    file_parts d dt = init ++ [last] /\ pystr_eqb last dotdot = false.
Proof.
  unfold file_parts, segment.
  replace (strftime dt ++ underscore
           :: get (filename d) (lit "video.mp4") ++ dot :: dispatch_format d)
    with ((strftime dt ++ underscore :: get (filename d) (lit "video.mp4"))
          ++ dot :: dispatch_format d)
    by (rewrite <- app_assoc; reflexivity).
  assert (Hsuf : Forall (fun c => char_eqb c slash = false)
                   (dot :: dispatch_format d)).
  { constructor; [reflexivity|].
    destruct (dispatch_format_supported d) as [-> | ->];
      repeat (constructor; [reflexivity|]); constructor. }
  assert (Hlen : 4 <= length (dot :: dispatch_format d))
    by (destruct (dispatch_format_supported d) as [-> | ->]; simpl; lia).
  rewrite (split_on_app_tail _ Hsuf), filter_app. cbn [filter].
  rewrite real_part_long by (rewrite length_app; lia).
  eexists. eexists. split; [reflexivity|].
  apply not_dotdot_long. rewrite length_app. lia.
Qed.

(** The normal form of the output directory: names only, all of them
    components of the output directory. *)
Lemma out_dir_norm (U : unicode_db) (d : device) :
  Forall (fun w => pystr_eqb w dotdot = false) (normpath (out_dir U d))
  /\ forall w, str_in w (parts (out_dir U d)) = false ->
               str_in w (normpath (out_dir U d)) = false.
Proof.
  rewrite out_dir_shape. unfold normpath. cbn [parts].
  set (sane := safe_filename U (get (directory d) (lit ""))).
  destruct (real_part sane).
  - cbn [norm_parts].
    change (pystr_eqb (lit "snapshots_rtsp") dotdot) with false. cbn iota.
    destruct (pystr_eqb sane dotdot) eqn:E.
    + change (pystr_eqb (lit "snapshots_rtsp") dotdot) with false. cbn iota.
      cbn [norm_parts rev]. split; [constructor | reflexivity].
    + cbn [norm_parts rev app]. split; [|intros w Hw; exact Hw].
      repeat constructor. exact E.
  - cbn [norm_parts].
    change (pystr_eqb (lit "snapshots_rtsp") dotdot) with false. cbn iota.
    cbn [norm_parts rev app]. split; [|intros w Hw; exact Hw].
    repeat constructor.
Qed.

Lemma target_norm (U : unicode_db) (d : device) (dt : datetime) :
  normpath (target U d dt)
  = norm_parts (rev (normpath (out_dir U d))) (file_parts d dt).
Proof.
  rewrite target_parts. unfold normpath. cbn [parts].
  apply norm_parts_app.
Qed.

(** A file name that climbs above the output directory and names none of
    its components ends outside it. *)
Lemma climbing_name_escapes (U : unicode_db) (d : device) (dt : datetime) :
  climbs 0 (file_parts d dt) = true ->
  foreign (out_dir U d) (file_parts d dt) = true ->
  inside (out_dir U d) (target U d dt) = false.
Proof.
  intros Hc Hf. unfold inside. rewrite target_norm.
  apply andb_false_iff. right.
  destruct (out_dir_norm U d) as [Hplain Hsub].
  apply (above_not_inside Hplain).
  apply (@climb_ends_above _ Hplain (file_parts d dt) []);
    [|constructor | exact Hc].
  unfold foreign in Hf. rewrite forallb_forall in Hf.
  apply Forall_forall. intros w Hw. specialize (Hf w Hw).
  apply orb_true_iff in Hf. destruct Hf as [Hf|Hf]; [left; exact Hf|].
  right. apply Hsub. apply negb_true_iff. exact Hf.
Qed.

(** A file name that never climbs above the output directory ends inside
    it. *)
Lemma level_name_stays_inside (U : unicode_db) (d : device) (dt : datetime) :
  climbs 0 (file_parts d dt) = false ->
  inside (out_dir U d) (target U d dt) = true.
Proof.
  intros Hc. unfold inside. rewrite target_norm.
  rewrite target_parts. cbn [is_abs]. rewrite eqb_reflx. cbn [andb].
  destruct (@stays_below (file_parts d dt) [] (rev (normpath (out_dir U d)))
              Hc (Forall_nil _)) as [Hn Hplain].
  cbn [app] in Hn. rewrite Hn, rev_involutive, strip_prefix_self.
  destruct (file_parts_last d dt) as [init [last [E Hlast]]].
  rewrite E in Hplain |- *.
  rewrite norm_parts_app in Hplain |- *.
  cbn [norm_parts] in Hplain |- *. rewrite Hlast in Hplain |- *.
  cbn [norm_parts rev] in Hplain |- *. rewrite rev_involutive in Hplain |- *.
  pose proof (plain_lacks_dotdot Hplain) as Hlacks.
  destruct (norm_parts [] init ++ [last]) eqn:En.
  - destruct (norm_parts [] init); discriminate.
  - rewrite Hlacks. reflexivity.
Qed.

(** C10, refuted as stated.  The file name ["../../x"] contains path
    separators and two [".."] components, and the file name ["a/b"]
    contains a path separator, yet the paths the snapshots are written to
    lie inside the record's output directory: the timestamp prefix turns
    the first component into an ordinary name. *)
Lemma C10_dotdot_or_separator_stays_inside :
  let d1 := named porch_jpg "../../x" in
  let d2 := named porch_jpg "a/b" in
  let p1 := target ascii_db d1 noon in
  let p2 := target ascii_db d2 noon in
  contains dotdot (get (filename d1) []) = true
  /\ contains [slash] (get (filename d1) []) = true
  /\ nth_error (trace (snd (main sunny 20 (Devices [d1]) initial))) 4
     = Some (EImwrite p1 (Some vga))
  /\ inside (out_dir ascii_db d1) p1 = true
  /\ contains [slash] (get (filename d2) []) = true
  /\ nth_error (trace (snd (main sunny 20 (Devices [d2]) initial))) 4
     = Some (EImwrite p2 (Some vga))
  /\ inside (out_dir ascii_db d2) p2 = true.
Proof.
  repeat split; vm_compute; reflexivity.
Qed.

(** C10, amended.  Only [directory] goes through [safe_filename]; the
    [filename] field reaches [record_rtsp_stream] inside the path as it was
    given: a record that is not skipped is recorded to [target], whose
    components are those of the output directory followed by [file_parts],
    the components of [<timestamp>_<filename>.<format>] split at ['/'],
    with nothing removed from [filename].  Whenever these components climb
    above the output directory and none of their names is a component of
    it, the path lies outside the output directory; whenever they never
    climb above it, the path lies inside.  The file name ["a/../../x"]
    gives a path outside, whatever the other fields of the record are. *)
Theorem C10_filename_reaches_path_unsanitized :
  forall (env : Env) (fuel : nat) (d : device) (st : State),
    let U := unicode env in
    let dt := datetime_now env (n_dates st) in
    process_device env fuel d st
    = (if dispatched d
       then record_rtsp_stream env fuel
              (get (camera_name d) []) (get (camera_url d) [])
              (target U d dt)
              (dispatch_format d) (get (duration d) DEFAULT_DURATION)
              {| n_caps := n_caps st; n_reads := n_reads st;
                 n_clock := n_clock st; n_dates := S (n_dates st);
                 trace := trace st ++ preamble U d |}
       else print MsgSkipping st)
    /\ target U d dt
       = {| is_abs := is_abs (out_dir U d);
            parts := parts (out_dir U d) ++ file_parts d dt |}
    /\ file_parts d dt
       = filter real_part
           (split_on slash
              (strftime dt ++ underscore
               :: get (filename d) (lit "video.mp4")
               ++ dot :: dispatch_format d))
    /\ out_dir U d
       = (if truthy (safe_filename U (get (directory d) (lit "")))
          then joinpath SAVE_DIR (safe_filename U (get (directory d) (lit "")))
          else SAVE_DIR)
    /\ (climbs 0 (file_parts d dt) = true ->
        foreign (out_dir U d) (file_parts d dt) = true ->
        inside (out_dir U d) (target U d dt) = false)
    /\ (climbs 0 (file_parts d dt) = false ->
        inside (out_dir U d) (target U d dt) = true)
    /\ inside (out_dir U (named d "a/../../x"))
         (target U (named d "a/../../x") dt) = false.
Proof.
  intros env fuel d st U dt.
  split; [apply process_device_call|].
  split; [apply target_parts|].
  split; [reflexivity|].
  split; [reflexivity|].
  split; [apply climbing_name_escapes|].
  split; [apply level_name_stays_inside|].
  rewrite target_parts, climbing_segment.
  apply two_up_escapes; apply not_dotdot_long.
  - rewrite length_app, strftime_length. simpl. lia.
  - destruct (dispatch_format_supported d) as [-> | ->]; simpl; lia.
Qed.

(** Two file names on the same camera: ["x/../../../etc/passwd"] climbs
    above [snapshots_rtsp] and lands outside it; ["../../x"] never climbs
    above it and lands inside. *)
Lemma C10_filename_reaches_path_unsanitized_witness :
  inside (out_dir ascii_db (named porch_jpg "x/../../../etc/passwd"))
    (target ascii_db (named porch_jpg "x/../../../etc/passwd") noon) = false
  /\ inside (out_dir ascii_db (named porch_jpg "../../x"))
       (target ascii_db (named porch_jpg "../../x") noon) = true.
Proof.
  split.
  - destruct (@C10_filename_reaches_path_unsanitized sunny 9
                (named porch_jpg "x/../../../etc/passwd") initial)
      as [_ [_ [_ [_ [Hout _]]]]].
    apply Hout; vm_compute; reflexivity.
  - destruct (@C10_filename_reaches_path_unsanitized sunny 9
                (named porch_jpg "../../x") initial)
      as [_ [_ [_ [_ [_ [Hin _]]]]]].
    apply Hin. vm_compute. reflexivity.
Defined.
